(** * trueBlinders: colour-blindness filters over video frames

    A shallow embedding of [trueBlinders.py]: the colour transform
    [apply_colorblind_filter] over 8-bit BGR frames with binary64
    arithmetic, and the controller [process_video] as a function from
    the opened capture to the trace of effects it performs. *)

From Stdlib Require Import ZArith List Bool String Ascii Lia Sorted.
From Stdlib Require Import QArith Floats Uint63 DecimalString.
Import ListNotations.

#[local] Set Warnings "-inexact-float".
#[local] Open Scope Z_scope.

(** ** Data model *)

(** A pixel of a [uint8] frame with three channels, in the order the
    array stores them.  Frames delivered by the decoder are BGR. *)
Definition pixel : Type := Z * Z * Z.

(** A frame is an array of shape (height, width, 3): a list of rows. *)
Definition frame : Type := list (list pixel).

(** The same array shape with [float64] entries. *)
Definition fpixel : Type := float * float * float.
Definition fframe : Type := list (list fpixel).

(** A 3x3 [float64] array, as three rows. *)
Definition matrix : Type := fpixel * fpixel * fpixel.

Definition u8 (z : Z) : Prop := 0 <= z <= 255.

Definition pixel_u8 (p : pixel) : Prop :=
  let '(c0, c1, c2) := p in u8 c0 /\ u8 c1 /\ u8 c2.

Definition frame_u8 (f : frame) : Prop := Forall (Forall pixel_u8) f.

Definition height (f : frame) : nat := List.length f.
Definition widths (f : frame) : list nat := map (@List.length pixel) f.

(** ** The catalogue of matrices *)

Definition Protanopia : matrix :=
  ((0.567, 0.433, 0.000),
   (0.558, 0.442, 0.000),
   (0.000, 0.242, 0.758))%float.

Definition Deuteranopia : matrix :=
  ((0.625, 0.375, 0.000),
   (0.700, 0.300, 0.000),
   (0.000, 0.300, 0.700))%float.

Definition Tritanopia : matrix :=
  ((0.950, 0.050, 0.000),
   (0.000, 0.433, 0.567),
   (0.000, 0.475, 0.525))%float.

(** The dictionary, in insertion order. *)
Definition COLORBLINDNESS_MATRICES : list (string * matrix) :=
  [ ("Protanopia"%string, Protanopia);
    ("Deuteranopia"%string, Deuteranopia);
    ("Tritanopia"%string, Tritanopia) ].

(** [d.get(key)]: the value stored under [key], or [None]. *)
Fixpoint dict_get {A : Type} (d : list (string * A)) (key : string) : option A :=
  match d with
  | [] => None
  | (k, v) :: rest => if String.eqb k key then Some v else dict_get rest key
  end.

(** ** The colour transform engine *)

(** [cv2.cvtColor] with [COLOR_BGR2RGB] and with [COLOR_RGB2BGR]: both
    exchange the first and the third channel of every pixel. *)
Definition swap_channels (p : pixel) : pixel :=
  let '(c0, c1, c2) := p in (c2, c1, c0).

Definition cvtColor_BGR2RGB (f : frame) : frame := map (map swap_channels) f.
Definition cvtColor_RGB2BGR (f : frame) : frame := map (map swap_channels) f.

(** Promotion of a [uint8] entry to [float64]. *)
Definition u8_to_float (z : Z) : float := PrimFloat.of_uint63 (Uint63.of_Z z).

(** [matrix.T]. *)
Definition T (m : matrix) : matrix :=
  let '((a00, a01, a02), (a10, a11, a12), (a20, a21, a22)) := m in
  ((a00, a10, a20), (a01, a11, a21), (a02, a12, a22)).

(** The inner product numpy accumulates for one output entry: the
    accumulator starts at zero and the three products are added in index
    order, each product and each sum rounded to binary64 (no fused
    multiply-add). *)
Definition dot3 (x0 x1 x2 y0 y1 y2 : float) : float :=
  (((0 + x0 * y0) + x1 * y1) + x2 * y2)%float.

(** [np.dot(a, b)] for [a] of shape (h, w, 3) and [b] of shape (3, 3):
    entry [j] of an output pixel sums the pixel's entries against column
    [j] of [b].  The [uint8] operand is promoted to [float64]. *)
Definition dot_pixel (b : matrix) (p : pixel) : fpixel :=
  let '((b00, b01, b02), (b10, b11, b12), (b20, b21, b22)) := b in
  let '(c0, c1, c2) := p in
  let x0 := u8_to_float c0 in
  let x1 := u8_to_float c1 in
  let x2 := u8_to_float c2 in
  (dot3 x0 x1 x2 b00 b10 b20,
   dot3 x0 x1 x2 b01 b11 b21,
   dot3 x0 x1 x2 b02 b12 b22).

Definition np_dot (a : frame) (b : matrix) : fframe := map (map (dot_pixel b)) a.

(** [np.maximum] and [np.minimum] on scalars: a NaN first operand is
    returned as it is. *)
Definition np_maximum (a b : float) : float :=
  if (b <=? a)%float || PrimFloat.is_nan a then a else b.

Definition np_minimum (a b : float) : float :=
  if (a <=? b)%float || PrimFloat.is_nan a then a else b.

(** [np.clip(a, a_min, a_max)] on one entry. *)
Definition clip (a a_min a_max : float) : float :=
  np_minimum (np_maximum a a_min) a_max.

Definition np_clip (a : fframe) (a_min a_max : float) : fframe :=
  map (map (fun p : fpixel =>
              let '(x0, x1, x2) := p in
              (clip x0 a_min a_max, clip x1 a_min a_max, clip x2 a_min a_max))) a.

(** The integer part of a binary64 value [(-1)^s * m * 2^e], the fraction
    discarded (rounding toward zero). Infinities and NaN have none: 0 stands for
    the unspecified result. *)
Definition SFtrunc (x : spec_float) : Z :=
  match x with
  | S754_finite s m e =>
      let a := if 0 <=? e then Zpos m * 2 ^ e else Zpos m / 2 ^ (- e) in
      if s then - a else a
  | _ => 0
  end.

Definition trunc (x : float) : Z := SFtrunc (Prim2SF x).

(** [.astype(np.uint8)] on one [float64] entry: the C conversion to an
    8-bit unsigned integer, which discards the fraction.  For a value
    outside the type's range, which C leaves open, the integer part is
    reduced modulo 256; [trunc_clip_range] below shows that the clipped
    values never get there. *)
Definition to_uint8 (x : float) : Z := trunc x mod 256.

Definition astype_uint8 (a : fframe) : frame :=
  map (map (fun p : fpixel =>
              let '(x0, x1, x2) := p in (to_uint8 x0, to_uint8 x1, to_uint8 x2))) a.

(** [apply_colorblind_filter(frame, matrix)]. *)
Definition apply_colorblind_filter (frame0 : frame) (m : matrix) : frame :=
  let rgb_frame := cvtColor_BGR2RGB frame0 in
  let transformed := np_dot rgb_frame (T m) in
  let transformed := astype_uint8 (np_clip transformed 0 255) in
  let bgr_transformed := cvtColor_RGB2BGR transformed in
  bgr_transformed.

(** What lines 39-48 compute for one BGR pixel: the clipped and narrowed
    inner product of a matrix row with the pixel in RGB order. *)
Definition narrow (v : float) : Z := to_uint8 (clip v 0 255).

Definition row_dot (row : fpixel) (r g b : Z) : float :=
  let '(m0, m1, m2) := row in
  dot3 (u8_to_float r) (u8_to_float g) (u8_to_float b) m0 m1 m2.

Definition filter_pixel (m : matrix) (p : pixel) : pixel :=
  let '(row0, row1, row2) := m in
  let '(b, g, r) := p in
  (narrow (row_dot row2 r g b), narrow (row_dot row1 r g b), narrow (row_dot row0 r g b)).

(** The matrix whose rows are the standard basis vectors. *)
Definition identity : matrix :=
  ((1, 0, 0), (0, 1, 0), (0, 0, 1))%float.

(** The facts about one byte value that the identity filter rests on,
    as a test that can be run over all 256 of them. *)
Definition u8_check (z : Z) : bool :=
  let x := u8_to_float z in
  PrimFloat.Leibniz.eqb (x * 0) 0 &&
  PrimFloat.Leibniz.eqb (x * 1) x &&
  PrimFloat.Leibniz.eqb (0 + x) x &&
  PrimFloat.Leibniz.eqb (x + 0) x &&
  (narrow x =? z).

(** The exact value of a binary64 number as a rational (0 for the values
    that have none). *)
Definition SF2Q (x : spec_float) : Q :=
  match x with
  | S754_finite s m e =>
      let a := if 0 <=? e then inject_Z (Zpos m * 2 ^ e)
               else Qmake (Zpos m) (Z.to_pos (2 ^ (- e))) in
      if s then Qopp a else a
  | _ => 0%Q
  end.

Definition F2Q (x : float) : Q := SF2Q (Prim2SF x).

(** A floor of a rational: the integer [c] with [c <= q < c + 1]. *)
Definition is_floor (c : Z) (q : Q) : Prop :=
  (inject_Z c <= q)%Q /\ (q < inject_Z (c + 1))%Q.

(** The product of two 3x3 arrays, [np.dot(a, b)], with the same
    accumulation as [dot3]: used only to compare a chain with the single
    matrix that would compose it. *)
Definition matmul (a b : matrix) : matrix :=
  let '((a00, a01, a02), (a10, a11, a12), (a20, a21, a22)) := a in
  let '((b00, b01, b02), (b10, b11, b12), (b20, b21, b22)) := b in
  ((dot3 a00 a01 a02 b00 b10 b20, dot3 a00 a01 a02 b01 b11 b21, dot3 a00 a01 a02 b02 b12 b22),
   (dot3 a10 a11 a12 b00 b10 b20, dot3 a10 a11 a12 b01 b11 b21, dot3 a10 a11 a12 b02 b12 b22),
   (dot3 a20 a21 a22 b00 b10 b20, dot3 a20 a21 a22 b01 b11 b21, dot3 a20 a21 a22 b02 b12 b22)).

(** ** The video pipeline controller *)

(** What [cv2.VideoCapture(input_path)] yields: whether the source could
    be opened, the properties [cap.get] reports (after [int(...)] for the
    three integer ones) and the frames that successive [cap.read()] calls
    decode before the first call that returns [ret = False]. *)
Record VideoCapture : Type := {
  isOpened : bool;
  CAP_PROP_FPS : float;
  CAP_PROP_FRAME_WIDTH : Z;
  CAP_PROP_FRAME_HEIGHT : Z;
  CAP_PROP_FRAME_COUNT : Z;
  decoded : list frame
}.

(** The effects of [process_video], in the order it performs them. *)
Inductive event : Type :=
| VideoCapture_open (path : string)
| VideoWriter_open (path fourcc : string) (fps : float) (width height : Z)
| cap_read
| out_write (f : frame)
| progress_call (p : Q)
| cap_release
| out_release
| showerror (title message : string)
| showinfo (title message : string).

(** The exceptions the body of [process_video] can raise: the division
    of the progress computation, and whatever the caller's progress
    callback raises. *)
Inductive exn : Type :=
| ZeroDivisionError
| CallbackError (message : string).

(** [str(e)], as the handler formats it. *)
Definition str (e : exn) : string :=
  match e with
  | ZeroDivisionError => "division by zero"
  | CallbackError message => message
  end.

(** The caller's progress callback: [None] when the call returns,
    [Some message] when it raises. *)
Definition callback : Type := Q -> option string.

Definition newline : string := String (ascii_of_nat 10) EmptyString.

(** Lines 80-88: the lookup of every filter name, stopping at the first
    name the dictionary does not hold. *)
Fixpoint get_matrices (filters : list string) : list matrix + string :=
  match filters with
  | [] => inl []
  | filter_type :: rest =>
      match dict_get COLORBLINDNESS_MATRICES filter_type with
      | None => inr filter_type
      | Some m =>
          match get_matrices rest with
          | inl matrices => inl (m :: matrices)
          | inr unknown => inr unknown
          end
      end
  end.

(** Lines 98-100: the filters applied to one frame, in list order. *)
Definition apply_filters (matrices : list matrix) (frame0 : frame) : frame :=
  fold_left apply_colorblind_filter matrices frame0.

(** Line 107: [(frame_num / total_frames) * 100].  The quotient of two
    Python integers raises when the divisor is zero.  The value is kept as
    an exact rational: rounding to binary64 is monotone and leaves 0 and 100
    fixed, so order and bounds are those of the rational. *)
Definition percentage (frame_num total_frames : Z) : Q :=
  ((inject_Z frame_num / inject_Z total_frames) * inject_Z 100)%Q.

Definition progress_value (frame_num total_frames : Z) : exn + Q :=
  if total_frames =? 0 then inl ZeroDivisionError
  else inr (percentage frame_num total_frames).

(** The line-106 test: the counter is a multiple of the batch size or
    equals the reported total. *)
Definition notifies (frame_num total_frames : Z) : bool :=
  (frame_num mod 10 =? 0) || (frame_num =? total_frames).

(** Lines 91-108: the read/transform/write loop over the frames still to
    be decoded, from the counter value [frame_num].  The result is the
    trace of the loop and the exception that left it, if any. *)
Fixpoint frame_loop (progress_callback : callback) (matrices : list matrix)
    (total_frames : Z) (remaining : list frame) (frame_num : Z)
    : list event * option exn :=
  match remaining with
  | [] => ([cap_read], None)
  | frame0 :: rest =>
      let filtered_frame := apply_filters matrices frame0 in
      let frame_num := frame_num + 1 in
      let body := [cap_read; out_write filtered_frame] in
      if notifies frame_num total_frames then
        match progress_value frame_num total_frames with
        | inl e => (body, Some e)
        | inr p =>
            match progress_callback p with
            | Some message => (body ++ [progress_call p], Some (CallbackError message))
            | None =>
                let '(tr, r) :=
                  frame_loop progress_callback matrices total_frames rest frame_num in
                (body ++ progress_call p :: tr, r)
            end
        end
      else
        let '(tr, r) :=
          frame_loop progress_callback matrices total_frames rest frame_num in
        (body ++ tr, r)
  end.

(** The [except Exception as e] handler of line 115. *)
Definition handler (e : exn) : list event :=
  [showerror "Error" ("An error occurred:" ++ newline ++ str e)].

(** [process_video(input_path, output_path, filters, progress_callback)],
    given the capture that opening [input_path] yields. *)
Definition process_video (cap : VideoCapture) (input_path output_path : string)
    (filters : list string) (progress_callback : callback) : list event :=
  VideoCapture_open input_path ::
  if negb (isOpened cap) then
    [showerror "Error" ("Cannot open video file: " ++ input_path)]
  else
    let fps := CAP_PROP_FPS cap in
    let width := CAP_PROP_FRAME_WIDTH cap in
    let height := CAP_PROP_FRAME_HEIGHT cap in
    let total_frames := CAP_PROP_FRAME_COUNT cap in
    VideoWriter_open output_path "mp4v" fps width height ::
    match get_matrices filters with
    | inr filter_type =>
        [showerror "Error" ("Unknown filter type: " ++ filter_type);
         cap_release; out_release]
    | inl matrices =>
        match frame_loop progress_callback matrices total_frames (decoded cap) 0 with
        | (tr, Some e) => tr ++ handler e
        | (tr, None) =>
            tr ++ [cap_release; out_release; progress_call (inject_Z 100)] ++
            match progress_callback (inject_Z 100) with
            | Some message => handler (CallbackError message)
            | None =>
                [showinfo "Success"
                   ("Filtered video saved to:" ++ newline ++ output_path)]
            end
        end
    end.

(** *** Observations on a trace *)

(** The values handed to the progress callback, in order. *)
Fixpoint progress_values (tr : list event) : list Q :=
  match tr with
  | [] => []
  | progress_call p :: rest => p :: progress_values rest
  | _ :: rest => progress_values rest
  end.

(** The frames handed to the sink, in order. *)
Fixpoint written_frames (tr : list event) : list frame :=
  match tr with
  | [] => []
  | out_write f :: rest => f :: written_frames rest
  | _ :: rest => written_frames rest
  end.

Definition is_release (ev : event) : bool :=
  match ev with
  | cap_release | out_release => true
  | _ => false
  end.

Definition is_open (ev : event) : bool :=
  match ev with
  | VideoCapture_open _ | VideoWriter_open _ _ _ _ _ => true
  | _ => false
  end.

(** Frame traffic and progress notifications: the work of the Streaming
    state. *)
Definition is_stream_event (ev : event) : bool :=
  match ev with
  | cap_read | out_write _ | progress_call _ => true
  | _ => false
  end.

(** The job ended in the success dialog. *)
Definition succeeded (tr : list event) : Prop :=
  exists tr' message, tr = tr' ++ [showinfo "Success" message].

(** The job ended in the error dialog of the exception handler. *)
Definition aborted (tr : list event) : Prop :=
  exists tr' e, tr = tr' ++ handler e.


(** The five ways a call of [process_video] runs, each with its trace. *)
Inductive outcome (cap : VideoCapture) (input_path output_path : string)
    (filters : list string) (progress_callback : callback) : list event -> Prop :=
| Not_opened :
    isOpened cap = false ->
    outcome cap input_path output_path filters progress_callback
      [VideoCapture_open input_path;
       showerror "Error" ("Cannot open video file: " ++ input_path)]
| Unknown_filter (filter_type : string) :
    isOpened cap = true ->
    get_matrices filters = inr filter_type ->
    outcome cap input_path output_path filters progress_callback
      [VideoCapture_open input_path;
       VideoWriter_open output_path "mp4v" (CAP_PROP_FPS cap)
         (CAP_PROP_FRAME_WIDTH cap) (CAP_PROP_FRAME_HEIGHT cap);
       showerror "Error" ("Unknown filter type: " ++ filter_type);
       cap_release; out_release]
| Raised (matrices : list matrix) (tr : list event) (e : exn) :
    isOpened cap = true ->
    get_matrices filters = inl matrices ->
    frame_loop progress_callback matrices (CAP_PROP_FRAME_COUNT cap) (decoded cap) 0
    = (tr, Some e) ->
    outcome cap input_path output_path filters progress_callback
      (VideoCapture_open input_path ::
       VideoWriter_open output_path "mp4v" (CAP_PROP_FPS cap)
         (CAP_PROP_FRAME_WIDTH cap) (CAP_PROP_FRAME_HEIGHT cap) ::
       tr ++ handler e)
| Raised_at_end (matrices : list matrix) (tr : list event) (message : string) :
    isOpened cap = true ->
    get_matrices filters = inl matrices ->
    frame_loop progress_callback matrices (CAP_PROP_FRAME_COUNT cap) (decoded cap) 0
    = (tr, None) ->
    progress_callback (inject_Z 100) = Some message ->
    outcome cap input_path output_path filters progress_callback
      (VideoCapture_open input_path ::
       VideoWriter_open output_path "mp4v" (CAP_PROP_FPS cap)
         (CAP_PROP_FRAME_WIDTH cap) (CAP_PROP_FRAME_HEIGHT cap) ::
       tr ++ [cap_release; out_release; progress_call (inject_Z 100)] ++
       handler (CallbackError message))
| Finalized (matrices : list matrix) (tr : list event) :
    isOpened cap = true ->
    get_matrices filters = inl matrices ->
    frame_loop progress_callback matrices (CAP_PROP_FRAME_COUNT cap) (decoded cap) 0
    = (tr, None) ->
    progress_callback (inject_Z 100) = None ->
    outcome cap input_path output_path filters progress_callback
      (VideoCapture_open input_path ::
       VideoWriter_open output_path "mp4v" (CAP_PROP_FPS cap)
         (CAP_PROP_FRAME_WIDTH cap) (CAP_PROP_FRAME_HEIGHT cap) ::
       tr ++ [cap_release; out_release; progress_call (inject_Z 100);
              showinfo "Success"
                ("Filtered video saved to:" ++ newline ++ output_path)]).

(** A test capture: [n] copies of a 1x1 black frame, reported as
    [total] frames. *)
Definition black : frame := [[(0, 0, 0)]].

Definition capture_of (total : Z) (n : nat) : VideoCapture :=
  {| isOpened := true; CAP_PROP_FPS := 30; CAP_PROP_FRAME_WIDTH := 1;
     CAP_PROP_FRAME_HEIGHT := 1; CAP_PROP_FRAME_COUNT := total;
     decoded := repeat black n |}.

Definition quiet : callback := fun _ => None.

(** *** Further observations on a trace *)

(** The message boxes of a trace: each one is a terminal report. *)
Definition is_dialog (ev : event) : bool :=
  match ev with
  | showerror _ _ | showinfo _ _ => true
  | _ => false
  end.

(** Reading from the capture or writing to the sink. *)
Definition is_frame_io (ev : event) : bool :=
  match ev with
  | cap_read | out_write _ => true
  | _ => false
  end.

Definition is_writer_open (ev : event) : bool :=
  match ev with
  | VideoWriter_open _ _ _ _ _ => true
  | _ => false
  end.

(** The three catalogue names, the keys of the dictionary. *)
Definition catalogue : list string := map fst COLORBLINDNESS_MATRICES.

(** ** The application window *)

(** The classes of the widgets [create_widgets] puts into the root
    window, and the two values of their [state] option. *)
Inductive widget_class : Type := Label | Entry | Button | OptionMenu | Canvas.

Inductive widget_state : Type := normal | disabled.

Record widget : Type := {
  widget_name : string;
  class : widget_class;
  state : widget_state
}.

(** What the methods of [ColorblindFilterApp] read and change of the
    window: the children of the root in creation order (the order of
    [winfo_children()]), the right edge of the progress rectangle and the
    text of the progress label. *)
Record window : Type := {
  winfo_children : list widget;
  progress_rect : Q;
  progress_label : string
}.

(** The five [StringVar]s of the application. *)
Record variables : Type := {
  var_input_path : string;
  var_output_path : string;
  filter1 : string;
  filter2 : string;
  filter3 : string
}.

(** Line 152: the choices every filter menu offers. *)
Definition filter_options : list string :=
  ["Protanopia"; "Deuteranopia"; "Tritanopia"; "None"]%string.

(** Lines 135-192, [create_widgets]: the window as it is built. *)
Definition create_widgets : window :=
  {| winfo_children :=
       [ {| widget_name := "input_label"; class := Label; state := normal |};
         {| widget_name := "input_entry"; class := Entry; state := normal |};
         {| widget_name := "input_button"; class := Button; state := normal |};
         {| widget_name := "filter1_label"; class := Label; state := normal |};
         {| widget_name := "filter1_menu"; class := OptionMenu; state := normal |};
         {| widget_name := "filter2_label"; class := Label; state := normal |};
         {| widget_name := "filter2_menu"; class := OptionMenu; state := normal |};
         {| widget_name := "filter3_label"; class := Label; state := normal |};
         {| widget_name := "filter3_menu"; class := OptionMenu; state := normal |};
         {| widget_name := "output_label"; class := Label; state := normal |};
         {| widget_name := "output_entry"; class := Entry; state := normal |};
         {| widget_name := "output_button"; class := Button; state := normal |};
         {| widget_name := "start_button"; class := Button; state := normal |};
         {| widget_name := "progress_bar"; class := Canvas; state := normal |};
         {| widget_name := "progress_label"; class := Label; state := normal |} ];
     progress_rect := 0;
     progress_label := "Progress: 0%" |}.

(** The [isinstance] test of lines 265 and 271. *)
Definition is_control (child : widget) : bool :=
  match class child with
  | Button | Entry | OptionMenu => true
  | Label | Canvas => false
  end.

Definition configure_state (new_state : widget_state) (child : widget) : widget :=
  if is_control child
  then {| widget_name := widget_name child; class := class child; state := new_state |}
  else child.

(** Lines 263-267, [disable_ui]. *)
Definition disable_ui (w : window) : window :=
  {| winfo_children := map (configure_state disabled) (winfo_children w);
     progress_rect := progress_rect w;
     progress_label := "Processing..." |}.

(** Lines 269-273, [enable_ui]. *)
Definition enable_ui (w : window) : window :=
  {| winfo_children := map (configure_state normal) (winfo_children w);
     progress_rect := progress_rect w;
     progress_label := "Progress: 100%" |}.

(** [int(progress)]: the integer part, rounded toward zero. *)
Definition int_of (progress : Q) : Z := Z.quot (Qnum progress) (Zpos (Qden progress)).

(** The decimal text of an integer, as an f-string formats it. *)
Definition format_int (z : Z) : string := NilZero.string_of_int (Z.to_int z).

(** Lines 253-261, [update_progress].  The progress value is an exact
    rational, as in [percentage]. *)
Definition update_progress (w : window) (progress : Q) : window :=
  let w := {| winfo_children := winfo_children w;
              progress_rect := (6 * progress)%Q;
              progress_label := "Progress: " ++ format_int (int_of progress) ++ "%" |} in
  if Qle_bool 100 progress then enable_ui w else w.

(** [str.lower()] on the letters A-Z; every other character is kept.  No
    character outside A-Z has a lower case among the four characters of
    the suffix tested below. *)
Definition lower_ascii (c : ascii) : ascii :=
  let n := nat_of_ascii c in
  if ((65 <=? n) && (n <=? 90))%nat then ascii_of_nat (n + 32) else c.

Fixpoint lower (s : string) : string :=
  match s with
  | EmptyString => EmptyString
  | String c rest => String (lower_ascii c) (lower rest)
  end.

(** [s.endswith(suffix)]. *)
Definition endswith (s suffix : string) : bool :=
  (String.length suffix <=? String.length s)%nat &&
  String.eqb
    (substring (String.length s - String.length suffix) (String.length suffix) s)
    suffix.

(** How a click on "Apply Filters" ends: with a message box and nothing
    else done, or with the conversion thread started on these arguments. *)
Inductive start_outcome : Type :=
| showwarning (title message : string)
| showerror_box (title message : string)
| thread_started (input_file output_file : string) (filters : list string).

(** Lines 216-222: the selections that are not "None", in menu order. *)
Definition selected_filters (v : variables) : list string :=
  let filters := [] in
  let filters := if negb (String.eqb (filter1 v) "None") then filters ++ [filter1 v] else filters in
  let filters := if negb (String.eqb (filter2 v) "None") then filters ++ [filter2 v] else filters in
  let filters := if negb (String.eqb (filter3 v) "None") then filters ++ [filter3 v] else filters in
  filters.

(** Lines 211-251, [start_processing].  [isfile] is [os.path.isfile] on
    the file system of the moment. *)
Definition start_processing (isfile : string -> bool) (v : variables) (w : window)
    : window * start_outcome :=
  let input_file := var_input_path v in
  let output_file := var_output_path v in
  let filters := selected_filters v in
  if String.eqb input_file "" then
    (w, showwarning "Input Required" "Please select an input video file.")
  else if String.eqb output_file "" then
    (w, showwarning "Output Required" "Please select an output video file path.")
  else if negb (isfile input_file) then
    (w, showerror_box "File Not Found"
          ("The input file does not exist:" ++ newline ++ input_file))
  else if negb (endswith (lower output_file) ".mp4") then
    (w, showerror_box "Invalid Output" "The output file must have a .mp4 extension.")
  else if (List.length filters =? 0)%nat then
    (w, showwarning "No Filters Selected" "Please select at least one filter to apply.")
  else if (3 <? List.length filters)%nat then
    (w, showwarning "Too Many Filters" "You can apply a maximum of three filters.")
  else
    (disable_ui w, thread_started input_file output_file filters).

(** The outcome is the warning of line 240. *)
Definition is_too_many_filters (o : start_outcome) : bool :=
  match o with
  | showwarning title _ => String.eqb title "Too Many Filters"
  | _ => false
  end.

(** The conversion thread: [process_video] with [self.update_progress]
    as its callback.  The callback changes the window and returns, so the
    window after the run is the window after the notifications of the
    trace, in order. *)
Definition conversion_thread (cap : VideoCapture) (w : window)
    (input_file output_file : string) (filters : list string) : window * list event :=
  let tr := process_video cap input_file output_file filters quiet in
  (fold_left update_progress (progress_values tr) w, tr).

(** A click on "Apply Filters" and, if the thread is started, its run to
    the end.  [open] is what [cv2.VideoCapture] yields for a path. *)
Definition click_apply_filters (isfile : string -> bool) (open : string -> VideoCapture)
    (v : variables) (w : window) : window * option (list event) :=
  match start_processing isfile v w with
  | (w', thread_started input_file output_file filters) =>
      let '(w'', tr) := conversion_thread (open input_file) w' input_file output_file filters in
      (w'', Some tr)
  | (w', _) => (w', None)
  end.

(** Every control of the window has this state. *)
Definition controls_are (st : widget_state) (w : window) : Prop :=
  Forall (fun child => is_control child = true -> state child = st) (winfo_children w).



(** * Properties of the engine *)

Section Engine.

(** The four whole-array steps act on each pixel on its own. *)
Lemma apply_colorblind_filter_pixelwise (f : frame) (m : matrix) :
  apply_colorblind_filter f m = map (map (filter_pixel m)) f.
Proof.
  unfold apply_colorblind_filter, cvtColor_RGB2BGR, astype_uint8, np_clip,
    np_dot, cvtColor_BGR2RGB.
  rewrite !map_map. apply map_ext. intros row.
  rewrite !map_map. apply map_ext. intros [[b g] r].
  destruct m as [[[[a00 a01] a02] [[a10 a11] a12]] [[a20 a21] a22]].
  reflexivity.
Qed.

Lemma digits2_pos_bound (m : positive) : Zpos m < 2 ^ Zpos (digits2_pos m).
Proof.
  induction m as [m IH | m IH |]; cbn [digits2_pos];
    rewrite ?Pos2Z.inj_succ, ?Z.pow_succ_r by lia; lia.
Qed.

(** The mantissa of a valid binary64 number has at most 53 bits. *)
Lemma bounded_mantissa (m : positive) (e : Z) :
  bounded prec emax m e = true -> Zpos m < 2 ^ 53.
Proof.
  unfold bounded, canonical_mantissa, fexp. intros H.
  apply andb_prop in H. destruct H as [H _]. apply Z.eqb_eq in H.
  assert (Hd : Zpos (digits2_pos m) <= 53) by (unfold prec in H; lia).
  pose proof (digits2_pos_bound m) as Hm.
  assert (2 ^ Zpos (digits2_pos m) <= 2 ^ 53) by (apply Z.pow_le_mono_r; lia).
  lia.
Qed.

Lemma Prim2SF_255 : Prim2SF 255 = S754_finite false 8972014882652160 (-45).
Proof. reflexivity. Qed.

Lemma Prim2SF_0 : Prim2SF 0 = S754_zero false.
Proof. reflexivity. Qed.

(** The result of clipping to [0, 255] is NaN (when the operand is), or
    lies between the two bounds. *)
Lemma clip_0_255_cases (v : float) :
  PrimFloat.is_nan v = true /\ clip v 0 255 = v \/
  PrimFloat.is_nan (clip v 0 255) = false /\
  (0 <=? clip v 0 255)%float = true /\ (clip v 0 255 <=? 255)%float = true.
Proof.
  unfold clip, np_maximum, np_minimum.
  destruct (PrimFloat.is_nan v) eqn:Hnan.
  - left. rewrite !orb_true_r. rewrite Hnan, orb_true_r. auto.
  - right. rewrite !orb_false_r.
    destruct (0 <=? v)%float eqn:H0.
    + rewrite Hnan, orb_false_r.
      destruct (v <=? 255)%float eqn:H255; auto.
    + change (PrimFloat.is_nan 0) with false. change (0 <=? 255)%float with true.
      cbn. auto.
Qed.

Lemma compare_cont_Eq (p q : positive) : Pos.compare_cont Eq p q = Pos.compare p q.
Proof. reflexivity. Qed.

(** A valid binary64 number between 0 and 255 has its integer part in
    the same range, and that integer part is the floor of its value. *)
Lemma SFtrunc_between (f : spec_float) :
  valid_binary f = true ->
  SFleb (S754_zero false) f = true ->
  SFleb f (S754_finite false 8972014882652160 (-45)) = true ->
  0 <= SFtrunc f <= 255 /\ is_floor (SFtrunc f) (SF2Q f).
Proof.
  assert (HM : Zpos 8972014882652160 = 255 * 2 ^ 45) by reflexivity.
  revert HM. generalize 8972014882652160%positive. intros M HM.
  destruct f as [s | s | | s m e]; cbn [valid_binary]; intros Hv H0 H255.
  - cbn. unfold is_floor, Qle, Qlt. cbn. lia.
  - destruct s; discriminate.
  - discriminate.
  - destruct s; [discriminate|].
    apply bounded_mantissa in Hv.
    unfold SFleb, SFcompare in H255. rewrite compare_cont_Eq in H255.
    assert (He : e < -45 \/ e = -45 /\ Zpos m <= Zpos M).
    { destruct (Z.compare_spec e (-45)) as [E | E | E]; try discriminate.
      - right. split; [exact E|].
        destruct (Pos.compare_spec m M) as [C | C | C]; try discriminate; lia.
      - left. exact E. }
    cbn [SFtrunc SF2Q].
    assert (Hneg : (0 <=? e) = false) by (apply Z.leb_gt; lia).
    rewrite Hneg.
    set (D := 2 ^ (- e)).
    assert (HD : 2 ^ 45 <= D) by (apply Z.pow_le_mono_r; lia).
    assert (HD0 : 0 < D) by lia.
    assert (Hq : 0 <= Zpos m / D <= 255).
    { split; [apply Z.div_pos; lia|].
      apply Z.lt_succ_r. apply Z.div_lt_upper_bound; [lia|].
      destruct He as [He | [-> Hm]].
      - assert (2 ^ 46 <= D) by (apply Z.pow_le_mono_r; lia).
        change (2 ^ 53) with (2 ^ 46 * 128) in Hv. nia.
      - subst D. change (2 ^ (- -45)) with (2 ^ 45). lia. }
    split; [exact Hq|].
    unfold is_floor, Qle, Qlt. cbn [Qnum Qden inject_Z].
    rewrite Z2Pos.id by exact HD0.
    pose proof (Z.mul_div_le (Zpos m) D HD0).
    pose proof (Z.mul_succ_div_gt (Zpos m) D HD0).
    lia.
Qed.

(** The narrowing after the clip never wraps: the stored byte is the
    integer part of the clipped value. *)
Lemma trunc_clip_range (v : float) : 0 <= trunc (clip v 0 255) <= 255.
Proof.
  destruct (clip_0_255_cases v) as [[Hnan ->] | (Hnan & H0 & H255)].
  - unfold trunc, Prim2SF. rewrite Hnan. cbn. lia.
  - rewrite FloatAxioms.leb_spec in H0, H255. rewrite Prim2SF_0 in H0.
    rewrite Prim2SF_255 in H255.
    apply (SFtrunc_between _ (Prim2SF_valid _) H0 H255).
Qed.

Lemma narrow_trunc (v : float) : narrow v = trunc (clip v 0 255).
Proof.
  unfold narrow, to_uint8. apply Z.mod_small.
  pose proof (trunc_clip_range v). lia.
Qed.

Lemma narrow_range (v : float) : u8 (narrow v).
Proof. rewrite narrow_trunc. apply trunc_clip_range. Qed.

Lemma narrow_floor (v : float) :
  PrimFloat.is_nan v = false -> is_floor (narrow v) (F2Q (clip v 0 255)).
Proof.
  intros Hv. rewrite narrow_trunc.
  destruct (clip_0_255_cases v) as [[Hnan _] | (Hnan & H0 & H255)].
  - congruence.
  - rewrite FloatAxioms.leb_spec in H0, H255. rewrite Prim2SF_0 in H0.
    rewrite Prim2SF_255 in H255.
    apply (SFtrunc_between _ (Prim2SF_valid _) H0 H255).
Qed.

Lemma filter_pixel_u8 (m : matrix) (p : pixel) : pixel_u8 (filter_pixel m p).
Proof.
  destruct m as [[row0 row1] row2], p as [[b g] r]. cbn.
  repeat split; apply narrow_range.
Qed.

Lemma apply_colorblind_filter_u8 (f : frame) (m : matrix) :
  frame_u8 (apply_colorblind_filter f m).
Proof.
  rewrite apply_colorblind_filter_pixelwise. unfold frame_u8.
  apply Forall_map, Forall_forall. intros row _.
  apply Forall_map, Forall_forall. intros p _. apply filter_pixel_u8.
Qed.

Lemma apply_filters_snoc (ms : list matrix) (m : matrix) (f : frame) :
  apply_filters (ms ++ [m]) f = apply_colorblind_filter (apply_filters ms f) m.
Proof. unfold apply_filters. rewrite fold_left_app. reflexivity. Qed.

Lemma u8_check_all : forallb u8_check (map Z.of_nat (seq 0 256)) = true.
Proof. vm_compute. reflexivity. Qed.

Lemma u8_check_true (z : Z) : u8 z -> u8_check z = true.
Proof.
  intros Hz. pose proof u8_check_all as H.
  rewrite forallb_forall in H. apply H.
  replace z with (Z.of_nat (Z.to_nat z)) by (unfold u8 in Hz; lia).
  apply in_map, in_seq. unfold u8 in Hz. lia.
Qed.

Lemma u8_float_facts (z : Z) :
  u8 z ->
  let x := u8_to_float z in
  (x * 0 = 0 /\ x * 1 = x /\ 0 + x = x /\ x + 0 = x)%float /\ narrow x = z.
Proof.
  intros Hz x. pose proof (u8_check_true z Hz) as H. unfold u8_check in H.
  fold x in H. rewrite !andb_true_iff in H.
  destruct H as [[[[H1 H2] H3] H4] H5].
  rewrite !FloatAxioms.Leibniz.eqb_spec in *. apply Z.eqb_eq in H5.
  repeat split; assumption.
Qed.

Lemma filter_pixel_identity (p : pixel) :
  pixel_u8 p -> filter_pixel identity p = p.
Proof.
  destruct p as [[b g] r]. intros (Hb & Hg & Hr).
  destruct (u8_float_facts b Hb) as [(Hb0 & Hb1 & Hbl & Hbr) Hbn].
  destruct (u8_float_facts g Hg) as [(Hg0 & Hg1 & Hgl & Hgr) Hgn].
  destruct (u8_float_facts r Hr) as [(Hr0 & Hr1 & Hrl & Hrr) Hrn].
  cbv zeta in *.
  unfold filter_pixel, identity, row_dot, dot3.
  rewrite Hb0, Hg0, Hr0, Hb1, Hg1, Hr1.
  repeat change (0 + 0)%float with 0%float.
  rewrite Hbl, Hgl, Hrl, Hgr, !Hrr, Hbn, Hgn, Hrn. reflexivity.
Qed.

End Engine.

(** ** The claims on the engine *)

(** C5. Every channel of every pixel of the frame that
    [apply_colorblind_filter] returns lies in [0, 255], whatever the frame
    and the matrix (so for the three catalogue matrices and for the pixels
    (0,0,0) and (255,255,255)), and the same holds of the frame after each
    application in a chain: for every chain that goes through [ms] and then
    [m], the frame after the application of [m] is in range. *)
Theorem apply_colorblind_filter_clipped :
  (forall (f : frame) (m : matrix), frame_u8 (apply_colorblind_filter f m)) /\
  (forall (ms : list matrix) (m : matrix) (f : frame),
      frame_u8 (apply_filters (ms ++ [m]) f)).
Proof.
  split.
  - apply apply_colorblind_filter_u8.
  - intros ms m f. rewrite apply_filters_snoc. apply apply_colorblind_filter_u8.
Qed.

(** C6. The frame [apply_colorblind_filter] returns has the height of
    its argument and, row by row, its width. *)
Theorem apply_colorblind_filter_dimensions (f : frame) (m : matrix) :
  height (apply_colorblind_filter f m) = height f /\
  widths (apply_colorblind_filter f m) = widths f.
Proof.
  rewrite apply_colorblind_filter_pixelwise. unfold height, widths. split.
  - apply length_map.
  - rewrite map_map. apply map_ext. intros row. apply length_map.
Qed.

(** C8. With the matrix whose rows are the standard basis vectors,
    [apply_colorblind_filter] returns every [uint8] frame unchanged: no
    channel differs from the input at all, so none by more than 1. *)
Theorem apply_colorblind_filter_identity (f : frame) :
  frame_u8 f -> apply_colorblind_filter f identity = f.
Proof.
  intros Hf. rewrite apply_colorblind_filter_pixelwise.
  rewrite <- (map_id f) at 2. apply map_ext_in. intros row Hrow.
  rewrite <- (map_id row) at 2. apply map_ext_in. intros p Hp.
  apply filter_pixel_identity.
  unfold frame_u8 in Hf. rewrite Forall_forall in Hf.
  specialize (Hf row Hrow). rewrite Forall_forall in Hf. exact (Hf p Hp).
Qed.

Lemma apply_colorblind_filter_identity_witness :
  apply_colorblind_filter [[(255, 0, 0); (12, 200, 7)]; [(0, 0, 0); (255, 255, 255)]]
    identity
  = [[(255, 0, 0); (12, 200, 7)]; [(0, 0, 0); (255, 255, 255)]].
Proof.
  apply apply_colorblind_filter_identity.
  repeat constructor; unfold u8; lia.
Defined.

(** C9. Through the Protanopia matrix a BGR pixel becomes, channel by
    channel, the inner product of a matrix row with the pixel in RGB
    order, clipped to [0, 255] and narrowed to 8 bits.  The native pixel
    (255,0,0), which is RGB (0,0,255), becomes native (193,0,0); the RGB
    pixel (255,0,0), native (0,0,255), becomes RGB (144,142,0), native
    (0,142,144). *)
Theorem protanopia_solid_colour :
  (forall b g r : Z,
      apply_colorblind_filter [[(b, g, r)]] Protanopia =
      [[(narrow (row_dot (0.000, 0.242, 0.758)%float r g b),
         narrow (row_dot (0.558, 0.442, 0.000)%float r g b),
         narrow (row_dot (0.567, 0.433, 0.000)%float r g b))]]) /\
  apply_colorblind_filter [[(255, 0, 0)]] Protanopia = [[(193, 0, 0)]] /\
  apply_colorblind_filter [[(0, 0, 255)]] Protanopia = [[(0, 142, 144)]].
Proof.
  split; [|split].
  - intros b g r. rewrite apply_colorblind_filter_pixelwise. reflexivity.
  - vm_compute. reflexivity.
  - vm_compute. reflexivity.
Qed.

(** C10. The narrowing is truncation.  Each channel that
    [apply_colorblind_filter] stores is the integer part of the clipped
    inner product; for every value that is not NaN that integer is the
    floor of the clipped value (which is never negative), never the nearest
    integer: the product 255 * 0.567, which is above 144.5, is stored as
    144. *)
Theorem narrowing_truncates :
  (forall (row0 row1 row2 : fpixel) (b g r : Z),
      apply_colorblind_filter [[(b, g, r)]] (row0, row1, row2) =
      [[(trunc (clip (row_dot row2 r g b) 0 255),
         trunc (clip (row_dot row1 r g b) 0 255),
         trunc (clip (row_dot row0 r g b) 0 255))]]) /\
  (forall v : float,
      PrimFloat.is_nan v = false ->
      is_floor (trunc (clip v 0 255)) (F2Q (clip v 0 255))) /\
  ((144.5 < F2Q (u8_to_float 255 * 0.567))%Q /\
   trunc (clip (u8_to_float 255 * 0.567) 0 255) = 144).
Proof.
  split; [|split].
  - intros row0 row1 row2 b g r. rewrite apply_colorblind_filter_pixelwise.
    cbn [map filter_pixel]. rewrite !narrow_trunc. reflexivity.
  - intros v Hv. rewrite <- narrow_trunc. apply narrow_floor, Hv.
  - split; vm_compute; reflexivity.
Qed.

Lemma narrowing_truncates_witness :
  is_floor (trunc (clip (u8_to_float 255 * 0.567) 0 255))
           (F2Q (clip (u8_to_float 255 * 0.567) 0 255)).
Proof.
  apply (proj1 (proj2 narrowing_truncates)). vm_compute. reflexivity.
Defined.

(** * Properties of the controller *)

Section Controller.

Variable progress_callback : callback.
Variable matrices : list matrix.
Variable total_frames : Z.

#[local] Abbreviation loop := (frame_loop progress_callback matrices total_frames).

(** One turn of the loop, by what ends it. *)
Lemma frame_loop_step (frame0 : frame) (rest : list frame) (frame_num : Z) :
  let n := frame_num + 1 in
  let w := out_write (apply_filters matrices frame0) in
  let p := percentage n total_frames in
  (notifies n total_frames = true /\ total_frames = 0 /\
   loop (frame0 :: rest) frame_num = ([cap_read; w], Some ZeroDivisionError)) \/
  (notifies n total_frames = true /\ total_frames <> 0 /\
   exists message, progress_callback p = Some message /\
     loop (frame0 :: rest) frame_num =
     ([cap_read; w; progress_call p], Some (CallbackError message))) \/
  (notifies n total_frames = true /\ total_frames <> 0 /\
   progress_callback p = None /\
   loop (frame0 :: rest) frame_num =
   (cap_read :: w :: progress_call p :: fst (loop rest n), snd (loop rest n))) \/
  (notifies n total_frames = false /\
   loop (frame0 :: rest) frame_num =
   (cap_read :: w :: fst (loop rest n), snd (loop rest n))).
Proof.
  intros n w p. cbn [frame_loop]. fold n.
  destruct (notifies n total_frames) eqn:Hn.
  - unfold progress_value. fold p.
    destruct (Z.eqb_spec total_frames 0) as [H0 | H0].
    + left. auto.
    + right. destruct (progress_callback p) as [message|] eqn:Hcb.
      * left. repeat split; auto. exists message. auto.
      * right. left. destruct (loop rest n) as [tr r]. auto.
  - right. right. right. destruct (loop rest n) as [tr r]. auto.
Qed.

(** The loop performs frame traffic and notifications only. *)
Lemma frame_loop_stream_events (remaining : list frame) (frame_num : Z) :
  forallb is_stream_event (fst (loop remaining frame_num)) = true.
Proof.
  revert frame_num. induction remaining as [| frame0 rest IH]; intros frame_num.
  - reflexivity.
  - destruct (frame_loop_step frame0 rest frame_num)
      as [(_ & _ & E) | [(_ & _ & message & _ & E) | [(_ & _ & _ & E) | (_ & E)]]];
      rewrite E; cbn; auto.
Qed.

(** The frames written are the filtered frames of a prefix of the input,
    in order; all of them when the loop ends without an exception. *)
Lemma frame_loop_written (remaining : list frame) (frame_num : Z) :
  (exists k, written_frames (fst (loop remaining frame_num)) =
             map (apply_filters matrices) (firstn k remaining)) /\
  (snd (loop remaining frame_num) = None ->
   written_frames (fst (loop remaining frame_num)) =
   map (apply_filters matrices) remaining).
Proof.
  revert frame_num. induction remaining as [| frame0 rest IH]; intros frame_num.
  - split; [exists 0%nat|]; reflexivity.
  - destruct (IH (frame_num + 1)) as [[k Hk] Hall].
    destruct (frame_loop_step frame0 rest frame_num)
      as [(_ & _ & E) | [(_ & _ & message & _ & E) | [(_ & _ & _ & E) | (_ & E)]]];
      rewrite E; cbn [fst snd written_frames].
    + split; [exists 1%nat; reflexivity | discriminate].
    + split; [exists 1%nat; reflexivity | discriminate].
    + split; [exists (S k); cbn; now rewrite Hk | intros H; cbn; now rewrite Hall].
    + split; [exists (S k); cbn; now rewrite Hk | intros H; cbn; now rewrite Hall].
Qed.

(** *** The percentage *)





(** *** The notifications of the loop *)



End Controller.



Lemma progress_values_app (a b : list event) :
  progress_values (a ++ b) = progress_values a ++ progress_values b.
Proof.
  induction a as [| ev a IH]; [reflexivity|].
  destruct ev; cbn; rewrite IH; reflexivity.
Qed.

Lemma written_frames_app (a b : list event) :
  written_frames (a ++ b) = written_frames a ++ written_frames b.
Proof.
  induction a as [| ev a IH]; [reflexivity|].
  destruct ev; cbn; rewrite IH; reflexivity.
Qed.

(** *** The runs of [process_video] *)

Lemma process_video_outcome (cap : VideoCapture) (input_path output_path : string)
    (filters : list string) (progress_callback : callback) :
  outcome cap input_path output_path filters progress_callback
    (process_video cap input_path output_path filters progress_callback).
Proof.
  unfold process_video.
  destruct (isOpened cap) eqn:Hopen; cbn [negb].
  - destruct (get_matrices filters) as [matrices | filter_type] eqn:Hget.
    + destruct (frame_loop _ _ _ _ _) as [tr [e |]] eqn:Hloop.
      * eapply Raised; eassumption.
      * destruct (progress_callback (inject_Z 100)) as [message |] eqn:Hcb.
        -- eapply Raised_at_end; eassumption.
        -- eapply Finalized; eassumption.
    + apply Unknown_filter; assumption.
  - apply Not_opened; assumption.
Qed.


(** Only the finalized run ends in the success dialog. *)
Lemma succeeded_finalized (cap : VideoCapture) (input_path output_path : string)
    (filters : list string) (progress_callback : callback) :
  succeeded (process_video cap input_path output_path filters progress_callback) ->
  exists matrices tr,
    get_matrices filters = inl matrices /\
    frame_loop progress_callback matrices (CAP_PROP_FRAME_COUNT cap) (decoded cap) 0
    = (tr, None) /\
    process_video cap input_path output_path filters progress_callback =
    VideoCapture_open input_path ::
    VideoWriter_open output_path "mp4v" (CAP_PROP_FPS cap)
      (CAP_PROP_FRAME_WIDTH cap) (CAP_PROP_FRAME_HEIGHT cap) ::
    tr ++ [cap_release; out_release; progress_call (inject_Z 100);
           showinfo "Success" ("Filtered video saved to:" ++ newline ++ output_path)].
Proof.
  intros (tr' & message & Hs).
  destruct (process_video_outcome cap input_path output_path filters progress_callback)
    as [Hopen | unknown Hopen Hget | matrices tr e Hopen Hget Hloop
        | matrices tr msg Hopen Hget Hloop Hcb | matrices tr Hopen Hget Hloop Hcb].
  - change [?a; ?b] with ([a] ++ [b]) in Hs.
    apply app_inj_tail in Hs. destruct Hs as [_ Hs]. discriminate.
  - change [?a; ?b; ?c; ?d; ?e] with ([a; b; c; d] ++ [e]) in Hs.
    apply app_inj_tail in Hs. destruct Hs as [_ Hs]. discriminate.
  - rewrite !app_comm_cons in Hs. unfold handler in Hs.
    apply app_inj_tail in Hs. destruct Hs as [_ Hs]. discriminate.
  - rewrite !app_comm_cons, app_assoc in Hs. unfold handler in Hs.
    apply app_inj_tail in Hs. destruct Hs as [_ Hs]. discriminate.
  - exists matrices, tr. auto.
Qed.

(** A run that an exception ends releases neither the capture nor the
    writer, both of which it had opened. *)
Lemma raised_releases_nothing (cap : VideoCapture) (input_path output_path : string)
    (filters : list string) (progress_callback : callback)
    (matrices : list matrix) (tr : list event) (e : exn) :
  isOpened cap = true ->
  get_matrices filters = inl matrices ->
  frame_loop progress_callback matrices (CAP_PROP_FRAME_COUNT cap) (decoded cap) 0
  = (tr, Some e) ->
  filter is_release
    (process_video cap input_path output_path filters progress_callback) = [] /\
  filter is_open
    (process_video cap input_path output_path filters progress_callback) =
  [VideoCapture_open input_path;
   VideoWriter_open output_path "mp4v" (CAP_PROP_FPS cap)
     (CAP_PROP_FRAME_WIDTH cap) (CAP_PROP_FRAME_HEIGHT cap)] /\
  aborted (process_video cap input_path output_path filters progress_callback).
Proof.
  intros Hopen Hget Hloop. unfold process_video.
  rewrite Hopen, Hget, Hloop. cbn [negb].
  pose proof (frame_loop_stream_events progress_callback matrices
                (CAP_PROP_FRAME_COUNT cap) (decoded cap) 0) as Hev.
  rewrite Hloop in Hev. cbn [fst] in Hev.
  assert (Hrel : filter is_release tr = [] /\ filter is_open tr = []).
  { clear Hloop. induction tr as [| ev tr IH]; [split; reflexivity|].
    cbn [forallb] in Hev. apply andb_prop in Hev. destruct Hev as [Hev1 Hev2].
    destruct (IH Hev2) as [IH1 IH2].
    destruct ev; try discriminate; cbn; auto. }
  destruct Hrel as [Hrel Hopn].
  repeat split.
  - cbn [filter is_release]. rewrite filter_app, Hrel. reflexivity.
  - cbn [filter is_open]. rewrite filter_app, Hopn. reflexivity.
  - eexists (_ :: _ :: tr), e. reflexivity.
Qed.

(** A source that reports a total of zero and decodes fewer than ten
    frames, none in particular, is processed to the end. *)
Lemma zero_total_short_input (cap : VideoCapture) (input_path output_path : string)
    (filters : list string) (progress_callback : callback) (matrices : list matrix) :
  isOpened cap = true ->
  CAP_PROP_FRAME_COUNT cap = 0 ->
  (List.length (decoded cap) < 10)%nat ->
  get_matrices filters = inl matrices ->
  progress_callback (inject_Z 100) = None ->
  succeeded (process_video cap input_path output_path filters progress_callback) /\
  progress_values (process_video cap input_path output_path filters progress_callback)
  = [inject_Z 100].
Proof.
  intros Hopen Htotal Hlen Hget Hcb. unfold process_video.
  rewrite Hopen, Hget, Htotal. cbn [negb].
  assert (Hloop : forall remaining k,
             0 <= k -> k + Z.of_nat (List.length remaining) < 10 ->
             snd (frame_loop progress_callback matrices 0 remaining k) = None /\
             progress_values (fst (frame_loop progress_callback matrices 0 remaining k))
             = []).
  { induction remaining as [| frame0 rest IH]; intros k Hk Hlt.
    - split; reflexivity.
    - cbn [List.length] in Hlt. destruct (IH (k + 1)) as [IH1 IH2]; [lia | lia |].
      assert (Hn : notifies (k + 1) 0 = false).
      { unfold notifies. apply orb_false_iff. split; apply Z.eqb_neq.
        - rewrite Z.mod_small; lia.
        - lia. }
      destruct (frame_loop_step progress_callback matrices 0 frame0 rest k)
        as [(N & _) | [(N & _) | [(N & _) | (_ & E)]]]; try congruence.
      rewrite E. cbn [fst snd progress_values]. auto. }
  destruct (Hloop (decoded cap) 0) as [H1 H2]; [lia | lia |].
  destruct (frame_loop _ _ _ _ _) as [tr r]. cbn [fst snd] in H1, H2. subst r.
  rewrite Hcb. split.
  - eexists (_ :: _ :: tr ++ [_; _; _]), _.
    cbn [app]. rewrite <- app_assoc. reflexivity.
  - cbn [progress_values]. rewrite progress_values_app, H2. reflexivity.
Qed.

(** A source that reports a total of zero and decodes ten frames or
    more: the tenth turn of the loop divides by the total.  No value has
    been handed to the callback, and the run is ended by the exception. *)
Lemma zero_total_long_input (cap : VideoCapture) (input_path output_path : string)
    (filters : list string) (progress_callback : callback) (matrices : list matrix) :
  isOpened cap = true ->
  CAP_PROP_FRAME_COUNT cap = 0 ->
  (10 <= List.length (decoded cap))%nat ->
  get_matrices filters = inl matrices ->
  (exists tr,
      process_video cap input_path output_path filters progress_callback =
      tr ++ handler ZeroDivisionError) /\
  progress_values (process_video cap input_path output_path filters progress_callback)
  = [].
Proof.
  intros Hopen Htotal Hlen Hget. unfold process_video.
  rewrite Hopen, Hget, Htotal. cbn [negb].
  assert (Hloop : forall remaining k,
             0 <= k < 10 -> 10 <= k + Z.of_nat (List.length remaining) ->
             snd (frame_loop progress_callback matrices 0 remaining k)
             = Some ZeroDivisionError /\
             progress_values (fst (frame_loop progress_callback matrices 0 remaining k))
             = []).
  { induction remaining as [| frame0 rest IH]; intros k Hk Hge.
    - cbn [List.length] in Hge. lia.
    - cbn [List.length] in Hge.
      destruct (frame_loop_step progress_callback matrices 0 frame0 rest k)
        as [(_ & _ & E) | [(_ & N & _) | [(_ & N & _) | (N & E)]]];
        try congruence.
      + rewrite E. split; reflexivity.
      + assert (Hk' : k + 1 < 10).
        { unfold notifies in N. apply orb_false_iff in N. destruct N as [N _].
          apply Z.eqb_neq in N. destruct (Z.eq_dec (k + 1) 10) as [E10 | E10].
          - rewrite E10 in N. exfalso. apply N. reflexivity.
          - lia. }
        destruct (IH (k + 1)) as [IH1 IH2]; [lia | lia |].
        rewrite E. cbn [fst snd progress_values]. auto. }
  destruct (Hloop (decoded cap) 0) as [H1 H2]; [lia | lia |].
  destruct (frame_loop _ _ _ _ _) as [tr r]. cbn [fst snd] in H1, H2. subst r.
  split.
  - eexists (_ :: _ :: tr). reflexivity.
  - cbn [progress_values]. rewrite progress_values_app, H2. reflexivity.
Qed.

(** ** The claims on the controller *)




(** C2 at its failing input.  A source that reports a total of zero and
    decodes ten frames: after the tenth frame is written the progress
    computation divides by the total and raises; the handler reports
    "division by zero", no notification has been made, and the job does not
    succeed. *)
Theorem zero_total_divides_by_zero :
  process_video (capture_of 0 10) "in.mp4" "out.mp4" ["Protanopia"%string] quiet =
  [VideoCapture_open "in.mp4"; VideoWriter_open "out.mp4" "mp4v" 30 1 1] ++
  List.concat (repeat [cap_read; out_write black] 10) ++
  [showerror "Error" ("An error occurred:" ++ newline ++ "division by zero")] /\
  progress_values
    (process_video (capture_of 0 10) "in.mp4" "out.mp4" ["Protanopia"%string] quiet)
  = [] /\
  progress_value 10 (CAP_PROP_FRAME_COUNT (capture_of 0 10)) = inl ZeroDivisionError.
Proof. split; [|split]; vm_compute; reflexivity. Qed.

(** C3 at its failing input.  The same run is ended by an exception
    after the capture and the writer were opened; the handler shows the
    error and the call returns with neither [cap.release()] nor
    [out.release()] performed. *)
Theorem exception_leaves_resources_open :
  aborted
    (process_video (capture_of 0 10) "in.mp4" "out.mp4" ["Protanopia"%string] quiet) /\
  filter is_open
    (process_video (capture_of 0 10) "in.mp4" "out.mp4" ["Protanopia"%string] quiet)
  = [VideoCapture_open "in.mp4"; VideoWriter_open "out.mp4" "mp4v" 30 1 1] /\
  filter is_release
    (process_video (capture_of 0 10) "in.mp4" "out.mp4" ["Protanopia"%string] quiet)
  = [].
Proof.
  split; [|split]; [| vm_compute; reflexivity | vm_compute; reflexivity].
  exists ([VideoCapture_open "in.mp4"; VideoWriter_open "out.mp4" "mp4v" 30 1 1] ++
          List.concat (repeat [cap_read; out_write black] 10)), ZeroDivisionError.
  vm_compute. reflexivity.
Qed.

(** The frames a call hands to the sink are the filtered frames of a
    prefix of the input, in input order; of the whole input when the call
    succeeds. *)
Lemma process_video_written (cap : VideoCapture) (input_path output_path : string)
    (filters : list string) (progress_callback : callback) (matrices : list matrix) :
  get_matrices filters = inl matrices ->
  (exists k,
      written_frames (process_video cap input_path output_path filters progress_callback)
      = map (apply_filters matrices) (firstn k (decoded cap))) /\
  (succeeded (process_video cap input_path output_path filters progress_callback) ->
   written_frames (process_video cap input_path output_path filters progress_callback)
   = map (apply_filters matrices) (decoded cap)).
Proof.
  intros Hget. split.
  - unfold process_video. rewrite Hget.
    destruct (isOpened cap); cbn [negb]; [|exists 0%nat; reflexivity].
    destruct (frame_loop_written progress_callback matrices
                (CAP_PROP_FRAME_COUNT cap) (decoded cap) 0) as [[k Hk] _].
    exists k.
    destruct (frame_loop _ _ _ _ _) as [tr [e |]]; cbn [fst] in Hk;
      cbn [written_frames]; rewrite written_frames_app, Hk.
    + cbn. apply app_nil_r.
    + destruct (progress_callback (inject_Z 100)); cbn; apply app_nil_r.
  - intros Hs. apply succeeded_finalized in Hs.
    destruct Hs as (matrices' & tr & Hget' & Hloop & ->).
    assert (matrices' = matrices) by congruence. subst matrices'.
    destruct (frame_loop_written progress_callback matrices
                (CAP_PROP_FRAME_COUNT cap) (decoded cap) 0) as [_ Hall].
    rewrite Hloop in Hall. cbn [fst snd] in Hall.
    cbn [written_frames]. rewrite written_frames_app, Hall by reflexivity.
    cbn. apply app_nil_r.
Qed.




(** C7. For a chain of two catalogue filters the frames [process_video]
    writes are, frame by frame and in input order, the nested application
    [apply_colorblind_filter (apply_colorblind_filter F M1) M2] (over a
    prefix of the input, and over all of it when the job succeeds).  The
    chain is not the application of one composite matrix: on a pure green
    pixel Protanopia followed by Deuteranopia differs from the product of
    the two matrices, taken in either order. *)
Theorem chain_applied_sequentially
    (cap : VideoCapture) (input_path output_path : string)
    (name1 name2 : string) (M1 M2 : matrix) (progress_callback : callback) :
  dict_get COLORBLINDNESS_MATRICES name1 = Some M1 ->
  dict_get COLORBLINDNESS_MATRICES name2 = Some M2 ->
  (exists k,
      written_frames
        (process_video cap input_path output_path [name1; name2] progress_callback)
      = map (fun F => apply_colorblind_filter (apply_colorblind_filter F M1) M2)
            (firstn k (decoded cap))) /\
  (succeeded
     (process_video cap input_path output_path [name1; name2] progress_callback) ->
   written_frames
     (process_video cap input_path output_path [name1; name2] progress_callback)
   = map (fun F => apply_colorblind_filter (apply_colorblind_filter F M1) M2)
         (decoded cap)) /\
  apply_colorblind_filter (apply_colorblind_filter [[(0, 255, 0)]] Protanopia) Deuteranopia
  <> apply_colorblind_filter [[(0, 255, 0)]] (matmul Deuteranopia Protanopia) /\
  apply_colorblind_filter (apply_colorblind_filter [[(0, 255, 0)]] Protanopia) Deuteranopia
  <> apply_colorblind_filter [[(0, 255, 0)]] (matmul Protanopia Deuteranopia).
Proof.
  intros H1 H2.
  assert (Hget : get_matrices [name1; name2] = inl [M1; M2])
    by (cbn [get_matrices]; rewrite H1, H2; reflexivity).
  destruct (process_video_written cap input_path output_path [name1; name2]
              progress_callback [M1; M2] Hget) as [Hprefix Hall].
  split; [exact Hprefix|]. split; [exact Hall|].
  split; vm_compute; discriminate.
Qed.

Lemma chain_applied_sequentially_witness :
  written_frames
    (process_video (capture_of 3 3) "in.mp4" "out.mp4"
       ["Protanopia"; "Deuteranopia"]%string quiet)
  = map (fun F => apply_colorblind_filter
                    (apply_colorblind_filter F Protanopia) Deuteranopia)
        (decoded (capture_of 3 3)).
Proof.
  apply (chain_applied_sequentially (capture_of 3 3) "in.mp4" "out.mp4"
           "Protanopia" "Deuteranopia" Protanopia Deuteranopia quiet
           eq_refl eq_refl).
  exists (removelast
            (process_video (capture_of 3 3) "in.mp4" "out.mp4"
               ["Protanopia"; "Deuteranopia"]%string quiet)),
         ("Filtered video saved to:" ++ newline ++ "out.mp4")%string.
  vm_compute. reflexivity.
Defined.

(** * Further properties *)

(** ** The engine *)






(** X2. The transform is local: the pixel at row [i], column [j] of the
    result is what [apply_colorblind_filter] makes of the pixel at that
    place taken alone, whatever the rest of the frame holds. *)
Theorem apply_colorblind_filter_local
    (f : frame) (m : matrix) (i j : nat) (row : list pixel) (p : pixel) :
  nth_error f i = Some row ->
  nth_error row j = Some p ->
  exists row' q,
    nth_error (apply_colorblind_filter f m) i = Some row' /\
    nth_error row' j = Some q /\
    apply_colorblind_filter [[p]] m = [[q]].
Proof.
  intros Hi Hj. rewrite !apply_colorblind_filter_pixelwise.
  exists (map (filter_pixel m) row), (filter_pixel m p).
  split; [|split].
  - rewrite nth_error_map, Hi. reflexivity.
  - rewrite nth_error_map, Hj. reflexivity.
  - reflexivity.
Qed.

Lemma apply_colorblind_filter_local_witness :
  exists row' q,
    nth_error (apply_colorblind_filter
                 [[(1, 2, 3); (4, 5, 6)]; [(7, 8, 9); (255, 0, 0)]] Tritanopia) 1
    = Some row' /\
    nth_error row' 1 = Some q /\
    apply_colorblind_filter [[(255, 0, 0)]] Tritanopia = [[q]].
Proof.
  apply (apply_colorblind_filter_local
           [[(1, 2, 3); (4, 5, 6)]; [(7, 8, 9); (255, 0, 0)]] Tritanopia 1 1
           [(7, 8, 9); (255, 0, 0)] (255, 0, 0) eq_refl eq_refl).
Defined.

Lemma filter_dimensions (f : frame) (m : matrix) :
  height (apply_colorblind_filter f m) = height f /\
  widths (apply_colorblind_filter f m) = widths f.
Proof.
  rewrite apply_colorblind_filter_pixelwise. unfold height, widths. split.
  - apply length_map.
  - rewrite map_map. apply map_ext. intros row. apply length_map.
Qed.

Lemma chain_dimensions (matrices : list matrix) (f : frame) :
  height (apply_filters matrices f) = height f /\
  widths (apply_filters matrices f) = widths f.
Proof.
  revert f. induction matrices as [| m ms IH]; intros f; [split; reflexivity|].
  cbn [apply_filters fold_left]. fold (apply_filters ms (apply_colorblind_filter f m)).
  destruct (IH (apply_colorblind_filter f m)) as [-> ->].
  apply filter_dimensions.
Qed.

(** X3. A chain of any length, the empty one included, returns a frame
    of the height and the row widths of its input; and a chain of at least
    one filter returns a frame with every channel in [0, 255]. *)
Theorem apply_filters_dimensions (matrices : list matrix) (f : frame) :
  height (apply_filters matrices f) = height f /\
  widths (apply_filters matrices f) = widths f /\
  (matrices <> [] -> frame_u8 (apply_filters matrices f)).
Proof.
  destruct (chain_dimensions matrices f) as [Hh Hw].
  split; [exact Hh|]. split; [exact Hw|].
  intros Hne. destruct (exists_last Hne) as (ms & m & ->).
  rewrite apply_filters_snoc. apply apply_colorblind_filter_u8.
Qed.

Lemma apply_filters_dimensions_witness :
  frame_u8 (apply_filters [Protanopia; Tritanopia; Deuteranopia] [[(200, 4, 12)]]).
Proof.
  apply (apply_filters_dimensions [Protanopia; Tritanopia; Deuteranopia]).
  discriminate.
Defined.

(** ** The controller *)

Lemma stream_events_filtered (tr : list event) :
  forallb is_stream_event tr = true ->
  filter is_dialog tr = [] /\ filter is_release tr = [] /\
  filter is_writer_open tr = [].
Proof.
  induction tr as [| ev tr IH]; [auto|].
  cbn [forallb]. intros H. apply andb_prop in H. destruct H as [Hev Htr].
  destruct (IH Htr) as (IH1 & IH2 & IH3).
  destruct ev; try discriminate; cbn; auto.
Qed.

Lemma frame_loop_filtered (progress_callback : callback) (matrices : list matrix)
    (total_frames : Z) (remaining : list frame) (frame_num : Z) (tr : list event)
    (r : option exn) :
  frame_loop progress_callback matrices total_frames remaining frame_num = (tr, r) ->
  filter is_dialog tr = [] /\ filter is_release tr = [] /\
  filter is_writer_open tr = [].
Proof.
  intros H. apply stream_events_filtered.
  pose proof (frame_loop_stream_events progress_callback matrices total_frames
                remaining frame_num) as Hev.
  rewrite H in Hev. exact Hev.
Qed.

Lemma get_matrices_length (filters : list string) (matrices : list matrix) :
  get_matrices filters = inl matrices ->
  List.length matrices = List.length filters.
Proof.
  revert matrices. induction filters as [| name rest IH]; intros matrices.
  - intros [= <-]. reflexivity.
  - cbn [get_matrices].
    destruct (dict_get COLORBLINDNESS_MATRICES name); [|discriminate].
    destruct (get_matrices rest) as [ms | u]; [|discriminate].
    intros [= <-]. cbn. f_equal. apply IH. reflexivity.
Qed.

(** X4. The lookup of the filter names yields matrices exactly when
    every name is a key of the dictionary, and then the matrices are the
    values of the names, one for one and in order. *)
Theorem get_matrices_resolved (filters : list string) (matrices : list matrix) :
  get_matrices filters = inl matrices <->
  map (dict_get COLORBLINDNESS_MATRICES) filters = map Some matrices.
Proof.
  revert matrices. induction filters as [| name rest IH]; intros matrices.
  - cbn. split.
    + intros [= <-]. reflexivity.
    + destruct matrices; [reflexivity | discriminate].
  - cbn [get_matrices map].
    destruct (dict_get COLORBLINDNESS_MATRICES name) as [m |].
    + destruct (get_matrices rest) as [ms | unknown].
      * split.
        -- intros [= <-]. cbn. f_equal. apply IH. reflexivity.
        -- destruct matrices as [| m' ms']; [discriminate|].
           cbn. intros [= <- H]. apply IH in H. congruence.
      * split; [discriminate|].
        destruct matrices as [| m' ms']; [discriminate|].
        cbn. intros [= <- H]. apply IH in H. discriminate.
    + split; [discriminate|].
      destruct matrices; discriminate.
Qed.

Lemma get_matrices_resolved_witness :
  get_matrices ["Tritanopia"; "Protanopia"; "Tritanopia"]%string
  = inl [Tritanopia; Protanopia; Tritanopia].
Proof.
  apply (proj2 (get_matrices_resolved ["Tritanopia"; "Protanopia"; "Tritanopia"]%string
                  [Tritanopia; Protanopia; Tritanopia])).
  reflexivity.
Defined.

(** X5. The lookup fails with a name exactly when that name is the
    first one of the list that the dictionary does not hold. *)
Theorem get_matrices_first_unknown (filters : list string) (unknown : string) :
  get_matrices filters = inr unknown <->
  exists known rest,
    filters = known ++ unknown :: rest /\
    Forall (fun name => dict_get COLORBLINDNESS_MATRICES name <> None) known /\
    dict_get COLORBLINDNESS_MATRICES unknown = None.
Proof.
  induction filters as [| name rest IH].
  - cbn. split; [discriminate|].
    intros (known & rest & H & _). destruct known; discriminate.
  - cbn [get_matrices].
    destruct (dict_get COLORBLINDNESS_MATRICES name) as [m |] eqn:Hname.
    + destruct (get_matrices rest) as [ms | u].
      * split; [discriminate|].
        intros (known & rest' & H & Hknown & Hu).
        destruct known as [| k known]; cbn in H; injection H as -> ->.
        -- congruence.
        -- inversion Hknown; subst.
           assert (inl ms = inr unknown :> list matrix + string) as Habs; [|discriminate].
           apply IH. exists known, rest'. auto.
      * split.
        -- intros [= ->]. destruct (proj1 IH eq_refl) as (known & rest' & -> & Hknown & Hu).
           exists (name :: known), rest'. repeat split; auto.
           constructor; [congruence | exact Hknown].
        -- intros (known & rest' & H & Hknown & Hu).
           destruct known as [| k known]; cbn in H; injection H as -> ->.
           ++ congruence.
           ++ inversion Hknown; subst. f_equal.
              assert (inr u = inr unknown :> list matrix + string) as [= ->]; [|reflexivity].
              apply IH. exists known, rest'. auto.
    + split.
      * intros [= ->]. exists [], rest. auto.
      * intros (known & rest' & H & Hknown & Hu).
        destruct known as [| k known]; cbn in H; injection H as -> ->.
        -- reflexivity.
        -- inversion Hknown; subst. congruence.
Qed.

Lemma get_matrices_first_unknown_witness :
  get_matrices ["Protanopia"; "Monochromacy"; "Achromatopsia"]%string
  = inr "Monochromacy"%string.
Proof.
  apply (proj2 (get_matrices_first_unknown
                  ["Protanopia"; "Monochromacy"; "Achromatopsia"]%string "Monochromacy")).
  exists ["Protanopia"%string], ["Achromatopsia"%string].
  split; [reflexivity|]. split; [|reflexivity].
  constructor; [discriminate | constructor].
Defined.

(** X6. An empty filter list is not rejected: the frames handed to the
    sink are the input frames themselves, unchanged and in order (a prefix
    of them in general, all of them when the job succeeds). *)
Theorem empty_filter_list_copies_frames
    (cap : VideoCapture) (input_path output_path : string)
    (progress_callback : callback) :
  (exists k,
      written_frames (process_video cap input_path output_path [] progress_callback)
      = firstn k (decoded cap)) /\
  (succeeded (process_video cap input_path output_path [] progress_callback) ->
   written_frames (process_video cap input_path output_path [] progress_callback)
   = decoded cap).
Proof.
  destruct (process_video_written cap input_path output_path [] progress_callback []
              eq_refl) as [[k Hk] Hall].
  assert (Hid : forall l : list frame, map (apply_filters []) l = l)
    by (intros l; apply map_id).
  split.
  - exists k. rewrite Hk. apply Hid.
  - intros Hs. rewrite (Hall Hs). apply Hid.
Qed.

Lemma empty_filter_list_copies_frames_witness :
  written_frames (process_video (capture_of 3 3) "in.mp4" "out.mp4" [] quiet)
  = decoded (capture_of 3 3).
Proof.
  apply (empty_filter_list_copies_frames (capture_of 3 3) "in.mp4" "out.mp4" quiet).
  exists (removelast (process_video (capture_of 3 3) "in.mp4" "out.mp4" [] quiet)),
         ("Filtered video saved to:" ++ newline ++ "out.mp4")%string.
  vm_compute. reflexivity.
Defined.

Lemma frame_loop_quiet (progress_callback : callback) (matrices : list matrix)
    (total_frames : Z) (remaining : list frame) (frame_num : Z) :
  (forall p, progress_callback p = None) ->
  total_frames <> 0 ->
  snd (frame_loop progress_callback matrices total_frames remaining frame_num) = None.
Proof.
  intros Hcb Ht. revert frame_num.
  induction remaining as [| frame0 rest IH]; intros frame_num; [reflexivity|].
  destruct (frame_loop_step progress_callback matrices total_frames frame0 rest frame_num)
    as [(_ & E0 & _) | [(_ & _ & message & Hm & _) | [(_ & _ & _ & E) | (_ & E)]]].
  - contradiction.
  - rewrite Hcb in Hm. discriminate.
  - rewrite E. apply IH.
  - rewrite E. apply IH.
Qed.

Lemma Forall_catalogue_resolves (filters : list string) :
  Forall (fun name => In name catalogue) filters <->
  exists matrices, get_matrices filters = inl matrices.
Proof.
  induction filters as [| name rest IH].
  - split; [exists []; reflexivity | constructor].
  - cbn [get_matrices]. split.
    + intros H. inversion H as [| ? ? Hname Hrest]; subst.
      apply IH in Hrest. destruct Hrest as [ms ->].
      assert (Hget : exists m, dict_get COLORBLINDNESS_MATRICES name = Some m).
      { cbn in Hname. destruct Hname as [<- | [<- | [<- | []]]]; eexists; reflexivity. }
      destruct Hget as [m ->]. eexists. reflexivity.
    + intros [ms H].
      destruct (dict_get COLORBLINDNESS_MATRICES name) as [m |] eqn:Hname;
        [|discriminate].
      destruct (get_matrices rest) as [ms' | u] eqn:Hrest; [|discriminate].
      constructor; [|apply IH; eexists; reflexivity].
      cbn [dict_get COLORBLINDNESS_MATRICES] in Hname. cbn.
      destruct (String.eqb_spec "Protanopia" name); [auto|].
      destruct (String.eqb_spec "Deuteranopia" name); [auto|].
      destruct (String.eqb_spec "Tritanopia" name); [auto|].
      discriminate.
Qed.

(** X7. With a callback that never raises, a job succeeds exactly when
    the input could be opened, every filter name is in the catalogue, and
    the reported total is not zero or fewer than ten frames are decoded. *)
Theorem process_video_succeeds_iff
    (cap : VideoCapture) (input_path output_path : string)
    (filters : list string) (progress_callback : callback) :
  (forall p, progress_callback p = None) ->
  succeeded (process_video cap input_path output_path filters progress_callback) <->
  isOpened cap = true /\
  Forall (fun name => In name catalogue) filters /\
  (CAP_PROP_FRAME_COUNT cap <> 0 \/ (List.length (decoded cap) < 10)%nat).
Proof.
  intros Hcb. split.
  - intros Hs. pose proof Hs as Hs'. apply succeeded_finalized in Hs'.
    destruct Hs' as (matrices & tr & Hget & Hloop & Htr).
    assert (Hopen : isOpened cap = true).
    { destruct (isOpened cap) eqn:Hopen; [reflexivity|].
      unfold process_video in Htr. rewrite Hopen in Htr. cbn in Htr. discriminate. }
    split; [exact Hopen|]. split.
    + apply Forall_catalogue_resolves. eexists. exact Hget.
    + destruct (Z.eq_dec (CAP_PROP_FRAME_COUNT cap) 0) as [H0 | H0]; [|auto].
      right. destruct (Nat.lt_ge_cases (List.length (decoded cap)) 10) as [Hlt | Hge];
        [exact Hlt|].
      destruct (zero_total_long_input cap input_path output_path filters
                  progress_callback matrices Hopen H0 Hge Hget) as [[tr0 Habs] _].
      destruct Hs as (tr1 & message & Hs). rewrite Habs in Hs. unfold handler in Hs.
      apply app_inj_tail in Hs. destruct Hs as [_ Hs]. discriminate.
  - intros (Hopen & Hnames & Hok).
    apply Forall_catalogue_resolves in Hnames. destruct Hnames as [matrices Hget].
    destruct (Z.eq_dec (CAP_PROP_FRAME_COUNT cap) 0) as [H0 | H0].
    + destruct Hok as [Hok | Hok]; [contradiction|].
      apply (zero_total_short_input cap input_path output_path filters
               progress_callback matrices Hopen H0 Hok Hget (Hcb _)).
    + pose proof (frame_loop_quiet progress_callback matrices
                    (CAP_PROP_FRAME_COUNT cap) (decoded cap) 0 Hcb H0) as Hq.
      unfold process_video. rewrite Hopen, Hget. cbn [negb].
      destruct (frame_loop _ _ _ _ _) as [tr r]. cbn [snd] in Hq. subst r.
      rewrite Hcb.
      eexists (_ :: _ :: tr ++ [_; _; _]), _.
      cbn [app]. rewrite <- app_assoc. reflexivity.
Qed.

Lemma process_video_succeeds_iff_witness :
  succeeded (process_video (capture_of 25 25) "in.mp4" "out.mp4"
               ["Deuteranopia"%string] quiet).
Proof.
  apply (proj2 (process_video_succeeds_iff (capture_of 25 25) "in.mp4" "out.mp4"
                  ["Deuteranopia"%string] quiet (fun _ => eq_refl))).
  split; [reflexivity|]. split.
  - constructor; [right; left; reflexivity | constructor].
  - left. discriminate.
Defined.

(** X8. Every call shows exactly one message box, the error dialog or
    the success dialog, whatever the input, the filters and the callback. *)
Theorem one_dialog_per_call
    (cap : VideoCapture) (input_path output_path : string)
    (filters : list string) (progress_callback : callback) :
  List.length
    (filter is_dialog
       (process_video cap input_path output_path filters progress_callback)) = 1%nat.
Proof.
  unfold process_video.
  destruct (isOpened cap); cbn [negb]; [|reflexivity].
  destruct (get_matrices filters) as [matrices | unknown]; [|reflexivity].
  destruct (frame_loop _ _ _ _ _) as [tr r] eqn:Hloop.
  destruct (frame_loop_filtered _ _ _ _ _ _ _ Hloop) as (Hd & _ & _).
  cbn [filter is_dialog].
  destruct r as [e |]; rewrite filter_app, Hd; [reflexivity|].
  destruct (progress_callback (inject_Z 100)); reflexivity.
Qed.

(** X9. The output writer is created exactly when the input could be
    opened, once, on the output path, with the "mp4v" code and the frame
    rate and size of the input. *)
Theorem writer_created_iff_opened
    (cap : VideoCapture) (input_path output_path : string)
    (filters : list string) (progress_callback : callback) :
  filter is_writer_open
    (process_video cap input_path output_path filters progress_callback) =
  if isOpened cap
  then [VideoWriter_open output_path "mp4v" (CAP_PROP_FPS cap)
          (CAP_PROP_FRAME_WIDTH cap) (CAP_PROP_FRAME_HEIGHT cap)]
  else [].
Proof.
  unfold process_video.
  destruct (isOpened cap); cbn [negb]; [|reflexivity].
  destruct (get_matrices filters) as [matrices | unknown]; [|reflexivity].
  destruct (frame_loop _ _ _ _ _) as [tr r] eqn:Hloop.
  destruct (frame_loop_filtered _ _ _ _ _ _ _ Hloop) as (_ & _ & Hw).
  cbn [filter is_writer_open].
  destruct r as [e |]; rewrite filter_app, Hw; [reflexivity|].
  destruct (progress_callback (inject_Z 100)); reflexivity.
Qed.

(** X10. Releases come last and at most once: every trace splits into
    a part without any release and a part without any read or write, and
    the releases of the second part are none, or the capture's followed by
    the writer's.  No frame is read or written after a release. *)
Theorem release_discipline
    (cap : VideoCapture) (input_path output_path : string)
    (filters : list string) (progress_callback : callback) :
  exists before after,
    process_video cap input_path output_path filters progress_callback
    = before ++ after /\
    filter is_release before = [] /\
    filter is_frame_io after = [] /\
    (filter is_release after = [] \/
     filter is_release after = [cap_release; out_release]).
Proof.
  destruct (process_video_outcome cap input_path output_path filters progress_callback)
    as [Hopen | unknown Hopen Hget | matrices tr e Hopen Hget Hloop
        | matrices tr msg Hopen Hget Hloop Hcb | matrices tr Hopen Hget Hloop Hcb].
  - eexists _, []. rewrite app_nil_r. repeat split; auto.
  - eexists [_; _; _], [_; _]. repeat split; auto.
  - destruct (frame_loop_filtered _ _ _ _ _ _ _ Hloop) as (_ & Hr & _).
    eexists _, []. rewrite app_nil_r. repeat split; auto.
    cbn [filter is_release]. rewrite filter_app, Hr. reflexivity.
  - destruct (frame_loop_filtered _ _ _ _ _ _ _ Hloop) as (_ & Hr & _).
    exists (VideoCapture_open input_path ::
            VideoWriter_open output_path "mp4v" (CAP_PROP_FPS cap)
              (CAP_PROP_FRAME_WIDTH cap) (CAP_PROP_FRAME_HEIGHT cap) :: tr).
    eexists. split; [reflexivity|]. cbn [filter is_release]. rewrite Hr.
    repeat split; auto.
  - destruct (frame_loop_filtered _ _ _ _ _ _ _ Hloop) as (_ & Hr & _).
    exists (VideoCapture_open input_path ::
            VideoWriter_open output_path "mp4v" (CAP_PROP_FPS cap)
              (CAP_PROP_FRAME_WIDTH cap) (CAP_PROP_FRAME_HEIGHT cap) :: tr).
    eexists. split; [reflexivity|]. cbn [filter is_release]. rewrite Hr.
    repeat split; auto.
Qed.

(** X11. The output of a successful job has as many frames as were
    decoded, and each written frame has the height and the row widths of
    the input frame at the same position. *)
Theorem success_keeps_frame_count_and_size
    (cap : VideoCapture) (input_path output_path : string)
    (filters : list string) (progress_callback : callback) :
  succeeded (process_video cap input_path output_path filters progress_callback) ->
  Forall2 (fun frame_in frame_out =>
             height frame_out = height frame_in /\ widths frame_out = widths frame_in)
    (decoded cap)
    (written_frames (process_video cap input_path output_path filters progress_callback)).
Proof.
  intros Hs. pose proof Hs as Hs'. apply succeeded_finalized in Hs'.
  destruct Hs' as (matrices & tr & Hget & _ & _).
  destruct (process_video_written cap input_path output_path filters
              progress_callback matrices Hget) as [_ Hall].
  rewrite (Hall Hs). clear.
  induction (decoded cap) as [| f fs IH]; cbn; constructor.
  - apply chain_dimensions.
  - exact IH.
Qed.

Lemma success_keeps_frame_count_and_size_witness :
  Forall2 (fun frame_in frame_out =>
             height frame_out = height frame_in /\ widths frame_out = widths frame_in)
    (decoded (capture_of 12 12))
    (written_frames
       (process_video (capture_of 12 12) "in.mp4" "out.mp4"
          ["Protanopia"; "Tritanopia"]%string quiet)).
Proof.
  apply (success_keeps_frame_count_and_size (capture_of 12 12) "in.mp4" "out.mp4"
           ["Protanopia"; "Tritanopia"]%string quiet).
  exists (removelast
            (process_video (capture_of 12 12) "in.mp4" "out.mp4"
               ["Protanopia"; "Tritanopia"]%string quiet)),
         ("Filtered video saved to:" ++ newline ++ "out.mp4")%string.
  vm_compute. reflexivity.
Defined.

(** The notifications of the loop over [n] frames from counter [k]: one
    for each multiple of ten passed, and one more at most, for the total. *)
Lemma frame_loop_notifications (progress_callback : callback) (matrices : list matrix)
    (total_frames : Z) (remaining : list frame) (frame_num : Z) :
  0 <= frame_num ->
  Z.of_nat (List.length
              (progress_values
                 (fst (frame_loop progress_callback matrices total_frames
                         remaining frame_num))))
  <= (frame_num + Z.of_nat (List.length remaining)) / 10 - frame_num / 10
     + (if frame_num <? total_frames then 1 else 0).
Proof.
  revert frame_num. induction remaining as [| frame0 rest IH]; intros frame_num Hk.
  - cbn [frame_loop fst progress_values List.length]. rewrite Z.add_0_r.
    destruct (frame_num <? total_frames); lia.
  - specialize (IH (frame_num + 1) ltac:(lia)).
    cbn [List.length]. rewrite Nat2Z.inj_succ.
    replace (frame_num + Z.succ (Z.of_nat (List.length rest)))
      with (frame_num + 1 + Z.of_nat (List.length rest)) by lia.
    set (hi := (frame_num + 1 + Z.of_nat (List.length rest)) / 10) in *.
    assert (Hup : frame_num / 10 <= (frame_num + 1) / 10)
      by (apply Z.div_le_mono; lia).
    assert (Hten : (frame_num + 1) mod 10 = 0 ->
                   (frame_num + 1) / 10 = frame_num / 10 + 1)
      by (intros; Z.div_mod_to_equations; lia).
    assert (Hnot : (frame_num + 1) mod 10 <> 0 ->
                   (frame_num + 1) / 10 = frame_num / 10)
      by (intros; Z.div_mod_to_equations; lia).
    assert (Hhi : (frame_num + 1) / 10 <= hi)
      by (apply Z.div_le_mono; lia).
    destruct (frame_loop_step progress_callback matrices total_frames frame0 rest frame_num)
      as [(_ & _ & E) | [(N & _ & message & _ & E) | [(N & _ & _ & E) | (N & E)]]];
      rewrite E; cbn [fst progress_values List.length].
    + destruct (frame_num <? total_frames); lia.
    + unfold notifies in N. apply orb_prop in N.
      destruct N as [N | N].
      * apply Z.eqb_eq in N. specialize (Hten N).
        destruct (frame_num <? total_frames); lia.
      * apply Z.eqb_eq in N.
        assert (Hlt : (frame_num <? total_frames) = true) by (apply Z.ltb_lt; lia).
        rewrite Hlt. lia.
    + rewrite Nat2Z.inj_succ. unfold notifies in N. apply orb_prop in N.
      destruct N as [N | N].
      * apply Z.eqb_eq in N. specialize (Hten N).
        destruct (Z.ltb_spec frame_num total_frames),
                 (Z.ltb_spec (frame_num + 1) total_frames); lia.
      * apply Z.eqb_eq in N.
        assert (Hlt : (frame_num <? total_frames) = true) by (apply Z.ltb_lt; lia).
        assert (Hge : (frame_num + 1 <? total_frames) = false) by (apply Z.ltb_ge; lia).
        rewrite Hlt. rewrite Hge in IH. lia.
    + unfold notifies in N. apply orb_false_iff in N. destruct N as [N _].
      apply Z.eqb_neq in N. specialize (Hnot N).
      destruct (Z.ltb_spec frame_num total_frames),
               (Z.ltb_spec (frame_num + 1) total_frames); lia.
Qed.

(** X12. Notifications are batched: a call over [n] decoded frames
    hands at most [n / 10 + 2] values to the progress callback, whatever
    total the source reports. *)
Theorem notifications_bounded
    (cap : VideoCapture) (input_path output_path : string)
    (filters : list string) (progress_callback : callback) :
  Z.of_nat (List.length
              (progress_values
                 (process_video cap input_path output_path filters progress_callback)))
  <= Z.of_nat (List.length (decoded cap)) / 10 + 2.
Proof.
  assert (H0 : 0 <= Z.of_nat (List.length (decoded cap)) / 10)
    by (apply Z.div_pos; lia).
  unfold process_video.
  destruct (isOpened cap); cbn [negb progress_values List.length]; [|lia].
  destruct (get_matrices filters) as [matrices | unknown];
    [|cbn [progress_values List.length]; lia].
  pose proof (frame_loop_notifications progress_callback matrices
                (CAP_PROP_FRAME_COUNT cap) (decoded cap) 0 ltac:(lia)) as Hloop.
  change (0 / 10) with 0 in Hloop. rewrite Z.add_0_l, Z.sub_0_r in Hloop.
  assert (Hb : (if 0 <? CAP_PROP_FRAME_COUNT cap then 1 else 0) <= 1)
    by (destruct (0 <? CAP_PROP_FRAME_COUNT cap); lia).
  destruct (frame_loop _ _ _ _ _) as [tr r]. cbn [fst] in Hloop.
  destruct r as [e |]; rewrite progress_values_app, length_app.
  - cbn [handler progress_values List.length]. lia.
  - destruct (progress_callback (inject_Z 100));
      cbn [handler app progress_values List.length]; lia.
Qed.

(** ** The application window *)

Section Strings.

#[local] Open Scope string_scope.
#[local] Open Scope nat_scope.

Lemma string_length_app (a b : string) :
  String.length (a ++ b) = String.length a + String.length b.
Proof. induction a as [| c a IH]; cbn; [reflexivity | now rewrite IH]. Qed.

Lemma substring_whole (b : string) : substring 0 (String.length b) b = b.
Proof. induction b as [| c b IH]; cbn; [reflexivity | now rewrite IH]. Qed.

Lemma substring_app_right (a b : string) :
  substring (String.length a) (String.length b) (a ++ b) = b.
Proof. induction a as [| c a IH]; cbn; [apply substring_whole | exact IH]. Qed.

Lemma string_split (s : string) (k : nat) :
  k <= String.length s -> exists a b, s = a ++ b /\ String.length a = k.
Proof.
  revert s. induction k as [| k IH]; intros s Hk.
  - exists "", s. auto.
  - destruct s as [| c s]; cbn in Hk; [lia|].
    destruct (IH s ltac:(lia)) as (a & b & -> & Ha).
    exists (String c a), b. cbn. auto.
Qed.

Lemma app_tail_inj (a b c d : string) :
  a ++ b = c ++ d -> String.length b = String.length d -> b = d.
Proof.
  intros H Hlen.
  assert (Hac : String.length a = String.length c).
  { apply (f_equal String.length) in H. rewrite !string_length_app in H. lia. }
  rewrite <- (substring_app_right a b), <- (substring_app_right c d).
  rewrite H, Hac, Hlen. reflexivity.
Qed.

Lemma endswith_iff (s suffix : string) :
  endswith s suffix = true <-> exists stem, s = stem ++ suffix.
Proof.
  unfold endswith. rewrite andb_true_iff, Nat.leb_le, String.eqb_eq. split.
  - intros [Hlen Hsub].
    destruct (string_split s (String.length s - String.length suffix) ltac:(lia))
      as (a & b & -> & Ha).
    exists a. f_equal.
    rewrite string_length_app in *.
    replace (String.length a + String.length b - String.length suffix)
      with (String.length a) in Hsub by lia.
    assert (Hb : String.length suffix = String.length b) by lia.
    rewrite Hb, substring_app_right in Hsub. exact Hsub.
  - intros [stem ->]. rewrite string_length_app. split; [lia|].
    replace (String.length stem + String.length suffix - String.length suffix)
      with (String.length stem) by lia.
    apply substring_app_right.
Qed.

Lemma lower_length (s : string) : String.length (lower s) = String.length s.
Proof. induction s as [| c s IH]; cbn; [reflexivity | now rewrite IH]. Qed.

Lemma lower_app (a b : string) : lower (a ++ b) = lower a ++ lower b.
Proof. induction a as [| c a IH]; cbn; [reflexivity | now rewrite IH]. Qed.

End Strings.

(** X13. The extension test of [start_processing] ignores case: an
    output path passes exactly when it ends in four characters that are
    ".mp4" once lowered (".mp4", ".MP4", ".Mp4", ...); the stem before them
    is free and may be empty. *)
Theorem mp4_extension_any_case (output_file : string) :
  endswith (lower output_file) ".mp4" = true <->
  exists stem ext, output_file = (stem ++ ext)%string /\ lower ext = ".mp4"%string.
Proof.
  rewrite endswith_iff. split.
  - intros [stem' H].
    assert (Hlen : (4 <= String.length output_file)%nat).
    { rewrite <- lower_length, H, string_length_app. cbn. lia. }
    destruct (string_split output_file (String.length output_file - 4) ltac:(lia))
      as (a & b & -> & Ha).
    exists a, b. split; [reflexivity|].
    rewrite lower_app in H. apply app_tail_inj in H; [exact H|].
    rewrite lower_length. rewrite string_length_app in Ha, Hlen. cbn. lia.
  - intros (stem & ext & -> & Hext).
    exists (lower stem). rewrite lower_app, Hext. reflexivity.
Qed.

Lemma mp4_extension_any_case_witness :
  endswith (lower "C:/Videos/Clip.Mp4") ".mp4" = true.
Proof.
  apply (proj2 (mp4_extension_any_case "C:/Videos/Clip.Mp4")).
  exists "C:/Videos/Clip"%string, ".Mp4"%string. split; reflexivity.
Defined.

Lemma selected_filters_length (v : variables) :
  (List.length (selected_filters v) <= 3)%nat.
Proof.
  unfold selected_filters.
  destruct (String.eqb (filter1 v) "None"), (String.eqb (filter2 v) "None"),
    (String.eqb (filter3 v) "None"); cbn; lia.
Qed.

(** X14. A click on "Apply Filters" starts the conversion thread exactly
    when the input path is not empty and names an existing file, the output
    path is not empty and passes the extension test, and at least one menu
    is not on "None"; the thread then gets the two paths and the selections
    that are not "None", in menu order. *)
Theorem start_processing_starts_iff
    (isfile : string -> bool) (v : variables) (w : window)
    (input_file output_file : string) (filters : list string) :
  snd (start_processing isfile v w) = thread_started input_file output_file filters <->
  input_file = var_input_path v /\ output_file = var_output_path v /\
  filters = selected_filters v /\
  input_file <> ""%string /\ output_file <> ""%string /\
  isfile input_file = true /\
  endswith (lower output_file) ".mp4" = true /\
  filters <> [].
Proof.
  unfold start_processing.
  pose proof (selected_filters_length v) as Hlen.
  destruct (String.eqb_spec (var_input_path v) "") as [Hi | Hi].
  { cbn. split; [discriminate|]. intros (-> & _ & _ & H & _). contradiction. }
  destruct (String.eqb_spec (var_output_path v) "") as [Ho | Ho].
  { cbn. split; [discriminate|]. intros (_ & -> & _ & _ & H & _). contradiction. }
  destruct (isfile (var_input_path v)) eqn:Hfile; cbn [negb].
  2:{ cbn. split; [discriminate|]. intros (-> & _ & _ & _ & _ & H & _). congruence. }
  destruct (endswith (lower (var_output_path v)) ".mp4") eqn:Hext; cbn [negb].
  2:{ cbn. split; [discriminate|]. intros (_ & -> & _ & _ & _ & _ & H & _). congruence. }
  destruct (selected_filters v) as [| f fs] eqn:Hsel.
  { cbn. split; [discriminate|]. intros (_ & _ & -> & _ & _ & _ & _ & H). contradiction. }
  cbn [List.length Nat.eqb].
  assert (Hthree : (3 <? S (List.length fs))%nat = false)
    by (apply Nat.ltb_ge; exact Hlen).
  rewrite Hthree. cbn [snd]. split.
  - intros [= <- <- <-]. repeat split; auto. discriminate.
  - intros (-> & -> & -> & _). reflexivity.
Qed.

Lemma start_processing_starts_iff_witness :
  snd (start_processing (fun _ => true)
         {| var_input_path := "in.mp4"; var_output_path := "out.MP4";
            filter1 := "Protanopia"; filter2 := "None"; filter3 := "Tritanopia" |}
         create_widgets)
  = thread_started "in.mp4" "out.MP4" ["Protanopia"; "Tritanopia"]%string.
Proof.
  apply (proj2 (start_processing_starts_iff (fun _ => true)
                  {| var_input_path := "in.mp4"; var_output_path := "out.MP4";
                     filter1 := "Protanopia"; filter2 := "None";
                     filter3 := "Tritanopia" |}
                  create_widgets "in.mp4" "out.MP4"
                  ["Protanopia"; "Tritanopia"]%string)).
  repeat split; try reflexivity; discriminate.
Defined.

(** X15. The "Too Many Filters" warning of line 240 is never shown:
    three menus give at most three filters. *)
Theorem too_many_filters_never_shown
    (isfile : string -> bool) (v : variables) (w : window) :
  is_too_many_filters (snd (start_processing isfile v w)) = false.
Proof.
  unfold start_processing.
  pose proof (selected_filters_length v) as Hlen.
  destruct (String.eqb (var_input_path v) ""); [reflexivity|].
  destruct (String.eqb (var_output_path v) ""); [reflexivity|].
  destruct (isfile (var_input_path v)); [|reflexivity].
  destruct (endswith (lower (var_output_path v)) ".mp4"); [|reflexivity].
  cbn [negb].
  destruct (List.length (selected_filters v) =? 0)%nat; [reflexivity|].
  assert (Hthree : (3 <? List.length (selected_filters v))%nat = false)
    by (apply Nat.ltb_ge; exact Hlen).
  rewrite Hthree. reflexivity.
Qed.

(** X16. With the three menus on choices they offer, the filters a
    started thread gets are one to three catalogue names, so that
    [process_video] resolves every one of them: the "Unknown filter type"
    error cannot come from the window. *)
Theorem menu_filters_resolve
    (isfile : string -> bool) (v : variables) (w : window)
    (input_file output_file : string) (filters : list string) :
  In (filter1 v) filter_options ->
  In (filter2 v) filter_options ->
  In (filter3 v) filter_options ->
  snd (start_processing isfile v w) = thread_started input_file output_file filters ->
  exists matrices,
    get_matrices filters = inl matrices /\
    (1 <= List.length matrices <= 3)%nat.
Proof.
  intros H1 H2 H3 Hstart.
  assert (Hfilters : filters = selected_filters v /\ filters <> []).
  { unfold start_processing in Hstart.
    destruct (String.eqb (var_input_path v) ""); [discriminate|].
    destruct (String.eqb (var_output_path v) ""); [discriminate|].
    destruct (isfile (var_input_path v)); [|discriminate].
    destruct (endswith (lower (var_output_path v)) ".mp4"); [|discriminate].
    cbn [negb] in Hstart.
    destruct (selected_filters v) as [| f fs]; [discriminate|].
    cbn [List.length Nat.eqb] in Hstart.
    destruct (3 <? S (List.length fs))%nat; [discriminate|].
    cbn in Hstart. injection Hstart as _ _ <-. split; [reflexivity | discriminate]. }
  destruct Hfilters as [-> Hne].
  assert (Hcat : Forall (fun name => In name catalogue) (selected_filters v)).
  { assert (Hopt : forall name, In name filter_options ->
                                String.eqb name "None" = false -> In name catalogue).
    { intros name Hin Hnone. cbn in Hin.
      destruct Hin as [<- | [<- | [<- | [<- | []]]]]; cbn; auto. discriminate. }
    unfold selected_filters.
    destruct (String.eqb (filter1 v) "None") eqn:E1,
             (String.eqb (filter2 v) "None") eqn:E2,
             (String.eqb (filter3 v) "None") eqn:E3; cbn [negb app];
      repeat (apply Forall_cons; [apply Hopt; assumption|]); apply Forall_nil. }
  apply Forall_catalogue_resolves in Hcat. destruct Hcat as [matrices Hget].
  exists matrices. split; [exact Hget|].
  assert (Hlen : List.length matrices = List.length (selected_filters v)).
  { apply get_matrices_length, Hget. }
  pose proof (selected_filters_length v).
  destruct (selected_filters v); [contradiction | cbn in *; lia].
Qed.

Lemma menu_filters_resolve_witness :
  exists matrices,
    get_matrices ["Deuteranopia"; "Deuteranopia"]%string = inl matrices /\
    (1 <= List.length matrices <= 3)%nat.
Proof.
  apply (menu_filters_resolve (fun _ => true)
           {| var_input_path := "in.mp4"; var_output_path := "out.mp4";
              filter1 := "Deuteranopia"; filter2 := "Deuteranopia"; filter3 := "None" |}
           create_widgets "in.mp4" "out.mp4").
  - right; left; reflexivity.
  - right; left; reflexivity.
  - right; right; right; left; reflexivity.
  - reflexivity.
Defined.

Lemma configure_state_is_control (st : widget_state) (child : widget) :
  is_control (configure_state st child) = is_control child.
Proof. unfold configure_state. destruct (is_control child) eqn:H; [|exact H]. exact H. Qed.

Lemma controls_are_configured (st : widget_state) (children : list widget) :
  Forall (fun child => is_control child = true -> state child = st)
         (map (configure_state st) children).
Proof.
  apply Forall_map, Forall_forall. intros child _.
  unfold configure_state. destruct (is_control child) eqn:H; [reflexivity|].
  rewrite H. discriminate.
Qed.

(** X17. Disabling and enabling are inverse on a window whose controls
    are all normal: [disable_ui] leaves every button, entry and menu
    disabled and touches no label and no canvas, and [enable_ui] after it
    gives back the children the window had. *)
Theorem enable_after_disable (w : window) :
  controls_are normal w ->
  controls_are disabled (disable_ui w) /\
  filter (fun child => negb (is_control child)) (winfo_children (disable_ui w))
  = filter (fun child => negb (is_control child)) (winfo_children w) /\
  winfo_children (enable_ui (disable_ui w)) = winfo_children w.
Proof.
  intros Hw. split; [|split].
  - apply controls_are_configured.
  - cbn [disable_ui winfo_children]. unfold controls_are in Hw. clear Hw.
    induction (winfo_children w) as [| child rest IH]; [reflexivity|].
    cbn [map filter]. rewrite configure_state_is_control.
    destruct (is_control child) eqn:H; cbn [negb]; [exact IH|].
    rewrite IH. unfold configure_state. rewrite H. reflexivity.
  - cbn [enable_ui disable_ui winfo_children]. rewrite map_map.
    unfold controls_are in Hw.
    induction Hw as [| child rest Hchild Hrest IH]; [reflexivity|].
    cbn [map]. rewrite IH. f_equal.
    unfold configure_state at 2. destruct (is_control child) eqn:H.
    + unfold configure_state. cbn [class is_control] in *.
      specialize (Hchild eq_refl).
      destruct child as [name cls st]. cbn in *. subst st.
      unfold is_control in *. cbn in *. rewrite H. reflexivity.
    + unfold configure_state. rewrite H. reflexivity.
Qed.

Lemma enable_after_disable_witness :
  winfo_children (enable_ui (disable_ui create_widgets)) = winfo_children create_widgets.
Proof.
  apply (enable_after_disable create_widgets).
  unfold controls_are. cbn. repeat constructor.
Defined.

Lemma update_progress_100 (w : window) :
  update_progress w (inject_Z 100) =
  {| winfo_children := map (configure_state normal) (winfo_children w);
     progress_rect := 600;
     progress_label := "Progress: 100%" |}.
Proof. reflexivity. Qed.

Lemma click_started (isfile : string -> bool) (open : string -> VideoCapture)
    (v : variables) (w w' : window) (tr : list event) :
  click_apply_filters isfile open v w = (w', Some tr) ->
  tr = process_video (open (var_input_path v)) (var_input_path v) (var_output_path v)
         (selected_filters v) quiet /\
  w' = fold_left update_progress (progress_values tr) (disable_ui w).
Proof.
  unfold click_apply_filters, start_processing.
  destruct (String.eqb (var_input_path v) ""); [discriminate|].
  destruct (String.eqb (var_output_path v) ""); [discriminate|].
  destruct (negb (isfile (var_input_path v))); [discriminate|].
  destruct (negb (endswith (lower (var_output_path v)) ".mp4")); [discriminate|].
  destruct (List.length (selected_filters v) =? 0)%nat; [discriminate|].
  destruct (3 <? List.length (selected_filters v))%nat; [discriminate|].
  unfold conversion_thread. intros [= <- <-]. auto.
Qed.

(** X18. After a click whose conversion succeeds the window is usable
    again: every control is back to normal, the label reads
    "Progress: 100%" and the bar is full (600 pixels). *)
Theorem window_enabled_after_success
    (isfile : string -> bool) (open : string -> VideoCapture)
    (v : variables) (w w' : window) (tr : list event) :
  click_apply_filters isfile open v w = (w', Some tr) ->
  succeeded tr ->
  controls_are normal w' /\
  progress_label w' = "Progress: 100%"%string /\
  progress_rect w' = 600%Q.
Proof.
  intros Hclick Hs. apply click_started in Hclick. destruct Hclick as [Htr ->].
  rewrite Htr in Hs. apply succeeded_finalized in Hs.
  destruct Hs as (matrices & ltr & _ & _ & Heq). rewrite <- Htr in Heq.
  assert (Hvals : progress_values tr = progress_values ltr ++ [inject_Z 100]).
  { rewrite Heq. cbn [progress_values]. rewrite progress_values_app. reflexivity. }
  rewrite Hvals, fold_left_app. cbn [fold_left]. rewrite update_progress_100.
  split; [|split]; try reflexivity.
  unfold controls_are. cbn [winfo_children]. apply controls_are_configured.
Qed.

Lemma window_enabled_after_success_witness :
  controls_are normal
    (fst (click_apply_filters (fun _ => true) (fun _ => capture_of 12 12)
            {| var_input_path := "in.mp4"; var_output_path := "out.mp4";
               filter1 := "Protanopia"; filter2 := "None"; filter3 := "None" |}
            create_widgets)).
Proof.
  apply (window_enabled_after_success (fun _ => true) (fun _ => capture_of 12 12)
           {| var_input_path := "in.mp4"; var_output_path := "out.mp4";
              filter1 := "Protanopia"; filter2 := "None"; filter3 := "None" |}
           create_widgets _
           (process_video (capture_of 12 12) "in.mp4" "out.mp4"
              ["Protanopia"%string] quiet)).
  - vm_compute. reflexivity.
  - exists (removelast
              (process_video (capture_of 12 12) "in.mp4" "out.mp4"
                 ["Protanopia"%string] quiet)),
           ("Filtered video saved to:" ++ newline ++ "out.mp4")%string.
    vm_compute. reflexivity.
Defined.

(** X19. After a click whose conversion cannot open its input, the
    window stays as [disable_ui] left it: every control disabled and the
    label on "Processing...".  Nothing re-enables it. *)
Theorem window_stays_disabled_when_input_not_opened
    (isfile : string -> bool) (open : string -> VideoCapture)
    (v : variables) (w w' : window) (tr : list event) :
  click_apply_filters isfile open v w = (w', Some tr) ->
  isOpened (open (var_input_path v)) = false ->
  w' = disable_ui w /\
  controls_are disabled w' /\
  progress_label w' = "Processing..."%string.
Proof.
  intros Hclick Hopen. apply click_started in Hclick. destruct Hclick as [Htr ->].
  assert (Hvals : progress_values tr = []).
  { rewrite Htr. unfold process_video. rewrite Hopen. reflexivity. }
  rewrite Hvals. cbn [fold_left]. split; [reflexivity|]. split; [|reflexivity].
  apply controls_are_configured.
Qed.

Lemma window_stays_disabled_when_input_not_opened_witness :
  controls_are disabled
    (fst (click_apply_filters (fun _ => true)
            (fun _ => {| isOpened := false; CAP_PROP_FPS := 0;
                         CAP_PROP_FRAME_WIDTH := 0; CAP_PROP_FRAME_HEIGHT := 0;
                         CAP_PROP_FRAME_COUNT := 0; decoded := [] |})
            {| var_input_path := "notes.txt"; var_output_path := "out.mp4";
               filter1 := "Protanopia"; filter2 := "None"; filter3 := "None" |}
            create_widgets)).
Proof.
  apply (window_stays_disabled_when_input_not_opened (fun _ => true)
           (fun _ => {| isOpened := false; CAP_PROP_FPS := 0;
                        CAP_PROP_FRAME_WIDTH := 0; CAP_PROP_FRAME_HEIGHT := 0;
                        CAP_PROP_FRAME_COUNT := 0; decoded := [] |})
           {| var_input_path := "notes.txt"; var_output_path := "out.mp4";
              filter1 := "Protanopia"; filter2 := "None"; filter3 := "None" |}
           create_widgets _
           [VideoCapture_open "notes.txt";
            showerror "Error" "Cannot open video file: notes.txt"]).
  - vm_compute. reflexivity.
  - reflexivity.
Defined.
